(** * Authenticus POS: the payment orchestration handlers

    A shallow embedding of the Express handlers of [src/server.js] and of
    its second variant [src/unnamed/part_000]: creation of a payment
    intent, processing on the reader with its polling loop, and (second
    variant only) cancellation of the reader action.

    JavaScript values are an inductive type, objects are finite maps from
    property names to values, and the asynchronous handlers are programs in
    a small monad that threads a logical clock and the trace of observable
    events (calls to the payment processor, timers, console output, HTTP
    responses).  The payment processor is an oracle, the [world]. *)

From stdpp Require Import base gmap strings list pretty.
From Stdlib Require Import QArith NArith Lia.

Local Close Scope Q_scope.
Local Open Scope string_scope.
Local Open Scope list_scope.

Set Warnings "-register-all".

(** ** JavaScript values *)

Module JS.

(** A JavaScript number: a finite value, an infinity, or NaN.  Finite
    doubles are rationals; [-0] and [0] are both [Fin 0]. *)
Inductive number :=
| Fin (q : Q)
| Inf (negative : bool)
| NaN.

Inductive value :=
| VUndefined
| VNull
| VBool (b : bool)
| VNum (n : number)
| VStr (s : string)
| VArr (l : list value)
| VObj (m : gmap string value).

(** Objects are maps from property names to values. *)
Abbreviation obj := (gmap string value).

(** ToBoolean: [undefined], [null], [false], [0], [NaN] and the empty
    string are falsy, everything else is truthy. *)
Definition truthy (v : value) : bool :=
  match v with
  | VUndefined | VNull => false
  | VBool b => b
  | VNum (Fin q) => negb (Qnum q =? 0)%Z
  | VNum (Inf _) => true
  | VNum NaN => false
  | VStr s => negb (String.eqb s "")
  | VArr _ | VObj _ => true
  end.

(** [a || b] *)
Definition or (a b : value) : value := if truthy a then a else b.

(** [o.k] on an object: the property, or [undefined] when it is absent. *)
Definition get (o : obj) (k : string) : value := default VUndefined (o !! k).

(** A destructuring default [{ k = d }]: used when the property is
    [undefined]. *)
Definition with_default (v d : value) : value :=
  match v with
  | VUndefined => d
  | _ => v
  end.

(** [v === 'lit'] for a string literal. *)
Definition strict_eq_str (v : value) (lit : string) : bool :=
  match v with
  | VStr s => String.eqb s lit
  | _ => false
  end.

(** A JavaScript string is a sequence of UTF-16 code units.  Here it is
    the string of the bytes of its UTF-8 encoding, a lone surrogate being
    encoded in three bytes like any other code unit of that range; bytes
    that are not such an encoding stand for no JavaScript string. *)
Definition byte (c : Ascii.ascii) : N := Ascii.N_of_ascii c.

Definition is_continuation (c : Ascii.ascii) : bool :=
  (128 <=? byte c)%N && (byte c <? 192)%N.

(** The three bytes of the code unit [x], for [x] from 0x800 on. *)
Definition unit3 (x : N) : string :=
  String (Ascii.ascii_of_N (224 + x / 4096))
    (String (Ascii.ascii_of_N (128 + (x / 64) mod 64))
       (String (Ascii.ascii_of_N (128 + x mod 64)) EmptyString)).

(** A character beyond U+FFFF, encoded in the four bytes [a b c d], is
    two code units: its high and its low surrogate. *)
Definition surrogates (a b c d : Ascii.ascii) : list value :=
  let cp := ((byte a mod 8) * 262144 + (byte b mod 64) * 4096
             + (byte c mod 64) * 64 + byte d mod 64)%N in
  let v := (cp - 65536)%N in
  [VStr (unit3 (55296 + v / 1024)); VStr (unit3 (56320 + v mod 1024))].

(** The code units of a string, each as a string of its own: a character
    of one, two or three bytes is one code unit, a character of four
    bytes is two. *)
Fixpoint chars (s : string) : list value :=
  match s with
  | EmptyString => []
  | String a s1 =>
      if (byte a <? 192)%N then VStr (String a EmptyString) :: chars s1
      else
        match s1 with
        | String b s2 =>
            if negb (is_continuation b)
            then VStr (String a EmptyString) :: chars s1
            else if (byte a <? 224)%N
            then VStr (String a (String b EmptyString)) :: chars s2
            else
              match s2 with
              | String c s3 =>
                  if negb (is_continuation c)
                  then VStr (String a EmptyString) :: chars s1
                  else if (byte a <? 240)%N
                  then VStr (String a (String b (String c EmptyString)))
                       :: chars s3
                  else
                    match s3 with
                    | String d s4 =>
                        if negb (is_continuation d)
                        then VStr (String a EmptyString) :: chars s1
                        else surrogates a b c d ++ chars s4
                    | EmptyString => VStr (String a EmptyString) :: chars s1
                    end
              | EmptyString => VStr (String a EmptyString) :: chars s1
              end
        | EmptyString => VStr (String a EmptyString) :: chars s1
        end
  end.

Definition indexed (l : list value) : obj :=
  list_to_map (imap (fun i x => (pretty i, x)) l).

(** The own enumerable properties an object spread [...v] copies. *)
Definition own_props (v : value) : obj :=
  match v with
  | VObj m => m
  | VArr l => indexed l
  | VStr s => indexed (chars s)
  | _ => ∅
  end.

(** [{ ...target, ...src }]: later properties win. *)
Definition spread (target : obj) (src : value) : obj :=
  own_props src ∪ target.

End JS.
Export JS.

(** ** The runtime: processor calls, timers, console, responses *)

Module Runtime.

(** What [stripe.paymentIntents.create] is called with. *)
Record createParams := {
  amount : value;
  currency : value;
  payment_method_types : value;
  capture_method : value;
  metadata : value;
  description : value;
  receipt_email : value
}.

(** A thrown error; the handlers only read [err.message]. *)
Record error := { message : string }.

Inductive result (A : Type) :=
| Ok (a : A)
| Err (e : error).
Arguments Ok {A} a.
Arguments Err {A} e.

Inductive call :=
| PaymentIntentsCreate (p : createParams)
| PaymentIntentsRetrieve (id : value)
| ProcessPaymentIntent (reader : value) (params : value)
| CollectInputs (reader : value) (params : value)
| CancelAction (reader : value).

Inductive level := Log | Error.

Inductive event :=
| EvCall (c : call)
| EvTimeout (ms : N)
| EvConsole (l : level) (text : string) (args : list value)
| EvRespond (status : N) (body : value).

(** The payment processor and the timers, as seen from the handler.
    The answer to a status fetch may change from one poll to the next,
    so it is indexed by the number of fetches made before it.
    [latency k] is the time the [k]-th awaited call takes, [jitter k] by
    how much the [k]-th timer fires late: a timer never fires early. *)
Record world := {
  on_create : createParams -> result obj;
  on_process : value -> value -> result unit;
  on_retrieve : value -> nat -> result obj;
  on_collect : value -> value -> result value;
  on_cancel : value -> result unit;
  latency : nat -> N;
  jitter : nat -> N
}.

(** Time is in milliseconds.  [awaits] counts the suspensions so far,
    [polls] the status fetches so far. *)
Record state := {
  clock : N;
  awaits : nat;
  polls : nat;
  trace : list (N * event)
}.

Definition init : state :=
  {| clock := 0; awaits := 0; polls := 0; trace := [] |}.

(** How an asynchronous computation stands when observation stops: it
    has returned, it has thrown, or it is still pending. *)
Inductive outcome (A : Type) :=
| Done (a : A)
| Thrown (e : error)
| Pending.
Arguments Done {A} a.
Arguments Thrown {A} e.
Arguments Pending {A}.

Definition M (A : Type) : Type := state -> outcome A * state.

Definition ret {A} (a : A) : M A := fun s => (Done a, s).

Definition throw {A} (e : error) : M A := fun s => (Thrown e, s).

Definition pending {A} : M A := fun s => (Pending, s).

Definition bind {A B} (m : M A) (k : A -> M B) : M B :=
  fun s =>
    match m s with
    | (Done a, s') => k a s'
    | (Thrown e, s') => (Thrown e, s')
    | (Pending, s') => (Pending, s')
    end.

(** [try { m } catch (err) { h err }] *)
Definition try_catch {A} (m : M A) (h : error -> M A) : M A :=
  fun s =>
    match m s with
    | (Thrown e, s') => h e s'
    | r => r
    end.

Definition emit (ev : event) : M unit :=
  fun s =>
    (Done tt,
     {| clock := clock s; awaits := awaits s; polls := polls s;
        trace := trace s ++ [(clock s, ev)] |}).

(** Suspend for [d] milliseconds. *)
Definition suspend (d : N) : M unit :=
  fun s =>
    (Done tt,
     {| clock := clock s + d; awaits := S (awaits s); polls := polls s;
        trace := trace s |}).

Definition count_poll : M nat :=
  fun s =>
    (Done (polls s),
     {| clock := clock s; awaits := awaits s; polls := S (polls s);
        trace := trace s |}).

Definition settle {A} (r : result A) : M A :=
  match r with
  | Ok a => ret a
  | Err e => throw e
  end.

Declare Scope js_scope.
Delimit Scope js_scope with js.
Notation "'let*' x ':=' m 'in' k" := (bind m (fun x => k))
  (at level 10, x name, m at level 100, k at level 200) : js_scope.
Notation "m ;; k" := (bind m (fun _ => k))
  (at level 100, right associativity) : js_scope.

Section Api.
Variable w : world.
Local Open Scope js_scope.

(** [await c]: the call is issued, takes its latency, and settles. *)
Definition await_call {A} (c : call) (r : result A) : M A :=
  emit (EvCall c) ;;
  (fun s => suspend (latency w (awaits s)) s) ;;
  settle r.

(** [await new Promise((r) => setTimeout(r, ms))] *)
Definition setTimeout (ms : N) : M unit :=
  emit (EvTimeout ms) ;;
  (fun s => suspend (ms + jitter w (awaits s)) s).

Definition paymentIntents_create (p : createParams) : M obj :=
  await_call (PaymentIntentsCreate p) (on_create w p).

Definition paymentIntents_retrieve (id : value) : M obj :=
  let* k := count_poll in
  await_call (PaymentIntentsRetrieve id) (on_retrieve w id k).

Definition readers_processPaymentIntent (reader params : value)
  : M unit :=
  await_call (ProcessPaymentIntent reader params)
             (on_process w reader params).

Definition readers_collectInputs (reader params : value) : M value :=
  await_call (CollectInputs reader params) (on_collect w reader params).

Definition readers_cancelAction (reader : value) : M unit :=
  await_call (CancelAction reader) (on_cancel w reader).
End Api.

(** [console.log] and [console.error]: the literal text and the values
    printed after it (for a template literal, the interpolated value). *)
Definition console_log (text : string) (args : list value) : M unit :=
  emit (EvConsole Log text args).

Definition console_error (text : string) (args : list value) : M unit :=
  emit (EvConsole Error text args).

(** [res.status(code).json(body)]; [res.json(body)] is status 200. *)
Definition res_status_json (code : N) (body : value) : M unit :=
  emit (EvRespond code body).

Definition res_json (body : value) : M unit := res_status_json 200 body.

(** An object literal with the given properties. *)
Definition object (props : list (string * value)) : value :=
  VObj (list_to_map props).

End Runtime.
Export Runtime.

(** ** [src/server.js] *)

Module Server.

Section Handlers.
(** [process.env.READER_ID] and the processor behind [stripe].  In every
    handler [body] is [req.body], the object [bodyParser.json()] parsed. *)
Variable READER_ID : value.
Variable w : world.
Local Open Scope js_scope.

(** [app.post('/create-payment-intent', ...)] *)
Definition create_payment_intent (body : obj) : M unit :=
  try_catch
    (let amount := get body "amount" in
     let currency := with_default (get body "currency") (VStr "usd") in
     let email := get body "email" in
     let metadata := with_default (get body "metadata") (VObj ∅) in
     if negb (truthy amount) then
       res_status_json 400 (object [("error", VStr "Missing amount")])
     else
       let* paymentIntent :=
         paymentIntents_create w
           {| amount := amount;
              currency := currency;
              payment_method_types := VArr [VStr "card_present"];
              capture_method := VStr "automatic";
              metadata := metadata;
              description := VStr "Authenticus POS Sale";
              receipt_email := or email VUndefined |} in
       console_log "✅ Created PaymentIntent: " [get paymentIntent "id"] ;;
       res_json (object [("payment_intent", get paymentIntent "id")]))
    (fun err =>
       console_error "❌ Stripe error creating payment intent:"
                     [VStr (message err)] ;;
       res_status_json 500 (object [("error", VStr (message err))])).

(** The recursive [poll] closure.  Each unfolding is one status fetch;
    [fuel] bounds how many fetches are observed, and a loop that has
    not returned within them is [Pending]. *)
Fixpoint poll (fuel : nat) (payment_intent : value) : M obj :=
  match fuel with
  | O => pending
  | S fuel' =>
      let* pi := paymentIntents_retrieve w payment_intent in
      if strict_eq_str (get pi "status") "succeeded" then ret pi
      else setTimeout w 1500 ;; poll fuel' payment_intent
  end.

Definition contact_prompt : value :=
  object
    [("type", VStr "customer_contact");
     ("fields",
      VArr
        [object [("name", VStr "email");
                 ("label", VStr "Email for receipt (optional)")];
         object [("name", VStr "phone_number");
                 ("label", VStr "SMS for receipt (optional)")]])].

(** [app.post('/process-on-reader', ...)] *)
Definition process_on_reader (fuel : nat) (body : obj) : M unit :=
  try_catch
    (let payment_intent := get body "payment_intent" in
     if negb (truthy payment_intent) then
       res_status_json 400
         (object [("error", VStr "Missing payment_intent")])
     else
       readers_processPaymentIntent w READER_ID
         (object [("payment_intent", payment_intent)]) ;;
       let* result := poll fuel payment_intent in
       res_json (object [("success", VBool true);
                         ("payment_intent", VObj result)]) ;;
       try_catch
         (if strict_eq_str (get result "status") "succeeded" then
            setTimeout w 1000 ;;
            let* inputResult :=
              readers_collectInputs w READER_ID contact_prompt in
            console_log "📨 Customer input collected on reader:"
                        [inputResult]
          else ret tt)
         (fun collectErr =>
            console_error "⚠️ Error collecting on-reader inputs:"
                          [VStr (message collectErr)]))
    (fun err =>
       console_error "❌ Error processing payment on reader:"
                     [VStr (message err)] ;;
       res_status_json 500 (object [("error", VStr (message err))])).

End Handlers.

End Server.

(** ** [src/unnamed/part_000]: the variant with the optional receipt
    e-mail and the cancel route *)

Module Part000.

Section Handlers.
Variable READER_ID : value.
Variable w : world.
Local Open Scope js_scope.

(** [app.post('/create-payment-intent', ...)] *)
Definition create_payment_intent (body : obj) : M unit :=
  try_catch
    (let amount := get body "amount" in
     let currency := with_default (get body "currency") (VStr "usd") in
     let email := get body "email" in
     let receipt_email := get body "receipt_email" in
     let metadata := with_default (get body "metadata") (VObj ∅) in
     if negb (truthy amount) then
       res_status_json 400 (object [("error", VStr "Missing amount")])
     else
       let customerEmail := or (or email receipt_email) VNull in
       let* paymentIntent :=
         paymentIntents_create w
           {| amount := amount;
              currency := currency;
              payment_method_types := VArr [VStr "card_present"];
              capture_method := VStr "automatic";
              description := VStr "Authenticus POS Sale";
              metadata :=
                VObj
                  (spread (spread ∅ metadata)
                     (if truthy customerEmail
                      then object [("customer_email", customerEmail)]
                      else object []));
              Runtime.receipt_email := or customerEmail VUndefined |} in
       console_log "✅ Created PaymentIntent: " [get paymentIntent "id"] ;;
       res_json (object [("payment_intent", get paymentIntent "id")]))
    (fun err =>
       console_error "❌ Stripe error creating payment intent:"
                     [VStr (message err)] ;;
       res_status_json 500 (object [("error", VStr (message err))])).

(** The recursive [poll] closure, as in [Server.poll]. *)
Fixpoint poll (fuel : nat) (payment_intent : value) : M obj :=
  match fuel with
  | O => pending
  | S fuel' =>
      let* pi := paymentIntents_retrieve w payment_intent in
      if strict_eq_str (get pi "status") "succeeded" then ret pi
      else setTimeout w 1500 ;; poll fuel' payment_intent
  end.

Definition contact_prompt : value :=
  object
    [("type", VStr "customer_contact");
     ("fields",
      VArr
        [object [("name", VStr "email");
                 ("label", VStr "Email for receipt (optional)")];
         object [("name", VStr "phone_number");
                 ("label", VStr "SMS for receipt (optional)")]])].

(** [app.post('/process-on-reader', ...)] *)
Definition process_on_reader (fuel : nat) (body : obj) : M unit :=
  try_catch
    (let payment_intent := get body "payment_intent" in
     if negb (truthy payment_intent) then
       res_status_json 400
         (object [("error", VStr "Missing payment_intent")])
     else
       readers_processPaymentIntent w READER_ID
         (object [("payment_intent", payment_intent)]) ;;
       let* result := poll fuel payment_intent in
       res_json (object [("success", VBool true);
                         ("payment_intent", VObj result)]) ;;
       try_catch
         (if strict_eq_str (get result "status") "succeeded" then
            setTimeout w 1000 ;;
            let* inputResult :=
              readers_collectInputs w READER_ID contact_prompt in
            console_log "📨 Customer input collected on reader:"
                        [inputResult]
          else ret tt)
         (fun collectErr =>
            console_error "⚠️ Error collecting on-reader inputs:"
                          [VStr (message collectErr)]))
    (fun err =>
       console_error "❌ Error processing payment on reader:"
                     [VStr (message err)] ;;
       res_status_json 500 (object [("error", VStr (message err))])).

(** [app.post('/cancel-payment', ...)]: the request body is not read. *)
Definition cancel_payment : M unit :=
  try_catch
    (readers_cancelAction w READER_ID ;;
     console_log "🚫 Payment cancelled on reader." [] ;;
     res_json (object [("success", VBool true);
                       ("message", VStr "Payment cancelled on reader")]))
    (fun err =>
       console_error "❌ Error cancelling reader action:"
                     [VStr (message err)] ;;
       res_status_json 500 (object [("error", VStr (message err))])).

End Handlers.

End Part000.

(** ** Observations on a trace *)

Definition is_respond (ev : event) : bool :=
  match ev with
  | EvRespond _ _ => true
  | _ => false
  end.

Definition is_fetch (ev : event) : bool :=
  match ev with
  | EvCall (PaymentIntentsRetrieve _) => true
  | _ => false
  end.

Definition is_collect (ev : event) : bool :=
  match ev with
  | EvCall (CollectInputs _ _) => true
  | _ => false
  end.

(** The events of a trace that satisfy [p], and the times they happen at. *)
Definition events_where (p : event -> bool) (tr : list (N * event))
  : list (N * event) :=
  List.filter (fun te => p (snd te)) tr.

Definition times_of (p : event -> bool) (tr : list (N * event)) : list N :=
  List.map fst (events_where p tr).

(** Consecutive entries of [ts] are at least [d] apart. *)
Fixpoint spaced (d : N) (ts : list N) : Prop :=
  match ts with
  | [] => True
  | t :: rest =>
      match rest with
      | [] => True
      | t' :: _ => (t + d <= t')%N
      end /\ spaced d rest
  end.

(** The status a payment intent object reports. *)
Definition status_is (pi : obj) (s : string) : Prop :=
  pi !! "status" = Some (VStr s).

(** ** Sample processors, used to run the handlers on concrete requests *)

Definition intent (id status : string) : obj :=
  list_to_map [("id", VStr id); ("status", VStr status)].

(** Succeeds on the third fetch, after two fetches that say processing. *)
Definition third_time_lucky : world :=
  {| on_create := fun _ => Ok (intent "pi_1" "requires_payment_method");
     on_process := fun _ _ => Ok tt;
     on_retrieve := fun _ k =>
       Ok (intent "pi_1" (if Nat.ltb k 2 then "processing" else "succeeded"));
     on_collect := fun _ _ => Ok (object [("email", VStr "a@b.c")]);
     on_cancel := fun _ => Ok tt;
     latency := fun _ => 20%N;
     jitter := fun _ => 3%N |}.

(** The sale was cancelled on the reader: every fetch says canceled. *)
Definition canceled_forever : world :=
  {| on_create := fun _ => Ok (intent "pi_1" "requires_payment_method");
     on_process := fun _ _ => Ok tt;
     on_retrieve := fun _ _ => Ok (intent "pi_1" "canceled");
     on_collect := fun _ _ => Ok VNull;
     on_cancel := fun _ => Ok tt;
     latency := fun _ => 20%N;
     jitter := fun _ => 0%N |}.

(** Every call to the processor fails. *)
Definition processor_down : world :=
  {| on_create := fun _ => Err {| message := "No such reader" |};
     on_process := fun _ _ => Err {| message := "No such reader" |};
     on_retrieve := fun _ _ => Err {| message := "No such reader" |};
     on_collect := fun _ _ => Err {| message := "No such reader" |};
     on_cancel := fun _ => Err {| message := "No such reader" |};
     latency := fun _ => 20%N;
     jitter := fun _ => 0%N |}.

Definition reader : value := VStr "tmr_1".

Definition sale (props : list (string * value)) : obj := list_to_map props.

(** Sample requests. *)
Definition on_reader_request : obj := sale [("payment_intent", VStr "pi_1")].

Definition empty_request : obj := sale [].

Definition emailed_sale : obj :=
  sale [("amount", VNum (Fin 1500)); ("email", VStr "a@b.c")].

Definition receipt_only_sale : obj :=
  sale [("amount", VNum (Fin 1500)); ("receipt_email", VStr "r@b.c")].


(** The state once one more event has been recorded, once [d] more
    milliseconds have passed, and once one more fetch has been counted. *)
Definition logged (ev : event) (s : state) : state := snd (emit ev s).

Definition waited (d : N) (s : state) : state := snd (suspend d s).

Definition counted (s : state) : state := snd (count_poll s).

(** One awaited call: issued, and answered after its latency. *)
Definition after_call (w : world) (c : call) (s : state) : state :=
  let s1 := logged (EvCall c) s in
  waited (latency w (awaits s1)) s1.

(** One status fetch: counted, then called. *)
Definition after_fetch (w : world) (id : value) (s : state) : state :=
  after_call w (PaymentIntentsRetrieve id) (counted s).

(** One timer of [ms] milliseconds. *)
Definition after_timeout (w : world) (ms : N) (s : state) : state :=
  let s1 := logged (EvTimeout ms) s in
  waited (ms + jitter w (awaits s1)) s1.

(** One round of the loop that does not end it: a fetch, then the 1.5 s
    timer. *)
Definition after_round (w : world) (id : value) (s : state) : state :=
  after_timeout w 1500 (after_fetch w id s).

(** [n] such rounds. *)
Fixpoint after_rounds (w : world) (id : value) (n : nat) (s : state) : state :=
  match n with
  | O => s
  | S n' => after_rounds w id n' (after_round w id s)
  end.

(** What one such round adds to the trace. *)
Definition round_events (id : value) : list event :=
  [EvCall (PaymentIntentsRetrieve id); EvTimeout 1500].

(** The polling loop is ready to fetch: the fetches so far are spaced, and
    the last of them is at least [d] behind the clock. *)
Definition fetch_ready (d : N) (s : state) : Prop :=
  spaced d (times_of is_fetch (trace s)) /\
  forall t, last (times_of is_fetch (trace s)) = Some t -> (t + d <= clock s)%N.

(** The bodies of the responses. *)
Definition error_body (msg : string) : value := object [("error", VStr msg)].

Definition success_body (result : obj) : value :=
  object [("success", VBool true); ("payment_intent", VObj result)].

(** The call that instructs the reader. *)
Definition process_call (READER_ID id : value) : call :=
  ProcessPaymentIntent READER_ID (object [("payment_intent", id)]).

Definition collect_call (READER_ID : value) : call :=
  CollectInputs READER_ID Server.contact_prompt.

(** What the console shows once the prompt on the reader has settled:
    the collected input, or the message of the error. *)
Definition collect_report (READER_ID : value) (w : world) : event :=
  match on_collect w READER_ID Server.contact_prompt with
  | Ok inputResult =>
      EvConsole Log "📨 Customer input collected on reader:" [inputResult]
  | Err collectErr =>
      EvConsole Error "⚠️ Error collecting on-reader inputs:"
                [VStr (message collectErr)]
  end.

(** The state after the 1 s timer, the prompt and its report. *)
Definition after_prompt (READER_ID : value) (w : world) (s : state) : state :=
  logged (collect_report READER_ID w)
    (after_call w (collect_call READER_ID) (after_timeout w 1000 s)).

(** The state after a [catch] block that prints [text] and answers 500. *)
Definition after_catch (text : string) (e : error) (s : state) : state :=
  logged (EvRespond 500 (error_body (message e)))
    (logged (EvConsole Error text [VStr (message e)]) s).

Definition is_success_response (ev : event) : bool :=
  match ev with
  | EvRespond 200 _ => true
  | _ => false
  end.

(** The run is still polling after [fuel] fetches: nothing has been
    answered, and the events so far are the instruction to the reader and
    then [fuel] rounds of a fetch and a 1.5 s timer. *)
Definition keeps_polling (READER_ID id : value) (fuel : nat)
    (run : outcome unit * state) : Prop :=
  fst run = Pending
  /\ (trace (snd run)).*2
     = EvCall (process_call READER_ID id)
       :: concat (replicate fuel (round_events id))
  /\ events_where is_respond (trace (snd run)) = [].

(** The trace answers [body] with status 200 after exactly [n] status
    fetches, spaced by 1.5 s; it is the first answer, and no fetch
    follows it. *)
Definition responds_after (n : nat) (body : value) (tr : list (N * event))
  : Prop :=
  exists pre t post,
    tr = pre ++ (t, EvRespond 200 body) :: post
    /\ length (times_of is_fetch pre) = n
    /\ spaced 1500 (times_of is_fetch pre)
    /\ events_where is_respond pre = []
    /\ events_where is_fetch post = [].

(** The run has answered with success and then, with nothing answered
    before and nothing after, waited 1 s, prompted on the reader and
    reported on the console; the handler has returned normally. *)
Definition prompted_after_success (READER_ID : value) (w : world)
    (run : outcome unit * state) : Prop :=
  exists pre result t t1 t2,
    fst run = Done tt
    /\ trace (snd run)
       = pre ++ [(t, EvRespond 200 (success_body result));
                 (t, EvTimeout 1000);
                 (t1, EvCall (collect_call READER_ID));
                 (t2, collect_report READER_ID w)]
    /\ status_is result "succeeded"
    /\ (t + 1000 <= t1)%N
    /\ events_where is_respond pre = []
    /\ events_where is_collect pre = [].

(** The run has neither answered with success nor prompted. *)
Definition no_success_no_prompt (run : outcome unit * state) : Prop :=
  events_where is_success_response (trace (snd run)) = []
  /\ events_where is_collect (trace (snd run)) = [].

(** The run is exactly the given events, and the handler has returned. *)
Definition completes_with (evs : list event) (run : outcome unit * state)
  : Prop :=
  fst run = Done tt /\ (trace (snd run)).*2 = evs.

(** The creation call each variant makes for a request that passes the
    amount check. *)
Definition server_params (body : obj) : createParams :=
  {| amount := get body "amount";
     currency := with_default (get body "currency") (VStr "usd");
     payment_method_types := VArr [VStr "card_present"];
     capture_method := VStr "automatic";
     metadata := with_default (get body "metadata") (VObj ∅);
     description := VStr "Authenticus POS Sale";
     receipt_email := or (get body "email") VUndefined |}.

Definition customer_email (body : obj) : value :=
  or (or (get body "email") (get body "receipt_email")) VNull.

Definition part000_params (body : obj) : createParams :=
  {| amount := get body "amount";
     currency := with_default (get body "currency") (VStr "usd");
     payment_method_types := VArr [VStr "card_present"];
     capture_method := VStr "automatic";
     metadata :=
       VObj
         (spread (spread ∅ (with_default (get body "metadata") (VObj ∅)))
            (if truthy (customer_email body)
             then object [("customer_email", customer_email body)]
             else object []));
     description := VStr "Authenticus POS Sale";
     receipt_email := or (customer_email body) VUndefined |}.

(** The state after a creation call and what follows it: the identifier
    logged and sent back, or the [catch] block. *)
Definition after_create (w : world) (p : createParams) (s : state) : state :=
  match on_create w p with
  | Ok paymentIntent =>
      logged (EvRespond 200 (object [("payment_intent", get paymentIntent "id")]))
        (logged (EvConsole Log "✅ Created PaymentIntent: "
                   [get paymentIntent "id"])
           (after_call w (PaymentIntentsCreate p) s))
  | Err err =>
      after_catch "❌ Stripe error creating payment intent:" err
        (after_call w (PaymentIntentsCreate p) s)
  end.

(** The first thing the run did was to call the processor's creation
    endpoint with [p]. *)
Definition creation_call (run : outcome unit * state) (p : createParams)
  : Prop :=
  (trace (snd run)).*2 !! 0 = Some (EvCall (PaymentIntentsCreate p)).

(** The intent was created with metadata tagged [customer_email = ce] and
    with a receipt asked for at [ce]. *)
Definition tags_and_receipts (ce : value) (run : outcome unit * state) : Prop :=
  exists p m,
    creation_call run p
    /\ metadata p = VObj m
    /\ m !! "customer_email" = Some ce
    /\ receipt_email p = ce.

(** The intent was created with a receipt asked for at [ce]. *)
Definition receipts (ce : value) (run : outcome unit * state) : Prop :=
  exists p, creation_call run p /\ receipt_email p = ce.

(** The intent was created with the metadata [md], as sent. *)
Definition forwards_metadata (md : value) (run : outcome unit * state) : Prop :=
  exists p, creation_call run p /\ metadata p = md.

(** The intent was created for the amount [a], as sent. *)
Definition forwards_amount (a : value) (run : outcome unit * state) : Prop :=
  exists p, creation_call run p /\ amount p = a.

(** ** Further observations, for the properties beyond the polling and
    creation ones *)

(** The processor answers processing once and then fails. *)
Definition fails_on_second_fetch : world :=
  {| on_create := fun _ => Ok (intent "pi_1" "requires_payment_method");
     on_process := fun _ _ => Ok tt;
     on_retrieve := fun _ k =>
       if Nat.eqb k 0 then Ok (intent "pi_1" "processing")
       else Err {| message := "Connection lost" |};
     on_collect := fun _ _ => Ok VNull;
     on_cancel := fun _ => Ok tt;
     latency := fun _ => 20%N;
     jitter := fun _ => 0%N |}.

Definition tagged_sale : obj :=
  sale [("amount", VNum (Fin 1500)); ("email", VStr "a@b.c");
        ("metadata", object [("order", VStr "42")])].

Definition plain_sale : obj :=
  sale [("amount", VNum (Fin 1500));
        ("metadata", object [("order", VStr "42")])].

(** The intent was created in the currency [c], for a card-present sale
    captured automatically, under the fixed description. *)
Definition created_in (c : value) (run : outcome unit * state) : Prop :=
  exists p,
    creation_call run p
    /\ currency p = c
    /\ payment_method_types p = VArr [VStr "card_present"]
    /\ capture_method p = VStr "automatic"
    /\ description p = VStr "Authenticus POS Sale".

(** The intent was created with an object as metadata that holds, under
    every key but [customer_email], what [md] holds there. *)
Definition keeps_metadata_of (md : value) (run : outcome unit * state) : Prop :=
  exists p m,
    creation_call run p
    /\ metadata p = VObj m
    /\ forall k, k <> "customer_email" -> m !! k = own_props md !! k.

(** The intent was created with exactly the properties of [md] as
    metadata and with no receipt asked for. *)
Definition untagged_no_receipt (md : value) (run : outcome unit * state)
  : Prop :=
  exists p,
    creation_call run p
    /\ metadata p = VObj (own_props md)
    /\ receipt_email p = VUndefined.

(** The number of responses sent in a trace. *)
Definition responses (tr : list (N * event)) : nat :=
  length (events_where is_respond tr).

(** The only processor calls among [evs] are the instruction to the
    reader for [id], status fetches of [id], and the prompt. *)
Definition calls_within (READER_ID id : value) (evs : list event) : Prop :=
  Forall
    (fun ev =>
       match ev with
       | EvCall c =>
           c = process_call READER_ID id
           \/ c = PaymentIntentsRetrieve id
           \/ c = collect_call READER_ID
       | _ => True
       end) evs.

(** The trace answers with success no earlier than [t0]. *)
Definition succeeds_no_earlier_than (t0 : N) (tr : list (N * event)) : Prop :=
  exists pre t result post,
    tr = pre ++ (t, EvRespond 200 (success_body result)) :: post
    /\ events_where is_respond pre = []
    /\ (t0 <= t)%N.

(** The first thing the run did was to instruct the reader for [id]. *)
Definition instructs_reader (READER_ID id : value)
    (run : outcome unit * state) : Prop :=
  (trace (snd run)).*2 !! 0 = Some (EvCall (process_call READER_ID id)).

(** The handler has returned and has answered exactly once. *)
Definition answers_once (run : outcome unit * state) : Prop :=
  fst run = Done tt /\ responses (trace (snd run)) = 1.

(** The handler is still pending and has not answered. *)
Definition pending_unanswered (run : outcome unit * state) : Prop :=
  fst run = Pending /\ responses (trace (snd run)) = 0.

(** The run is the instruction to the reader, [n] rounds of a fetch and
    the 1.5 s timer, one more fetch, and then the [catch] block for an
    error with the message [msg]. *)
Definition fails_on_fetch (READER_ID id : value) (n : nat) (msg : string)
    (run : outcome unit * state) : Prop :=
  completes_with
    (EvCall (process_call READER_ID id)
     :: concat (replicate n (round_events id))
     ++ [EvCall (PaymentIntentsRetrieve id);
         EvConsole Error "❌ Error processing payment on reader:" [VStr msg];
         EvRespond 500 (object [("error", VStr msg)])])
    run.

(** ** The Express application: middleware and routes in the order the
    files register them *)

Module Express.

(** What the handlers read of a request; [req_body] is what the body
    parsers left in [req.body]. *)
Record request := {
  req_method : string;
  req_path : string;
  req_body : obj
}.

(** What a handler of the files does with a request: it runs and answers
    JSON, or it calls [res.sendFile(path.join(...segments))]. *)
Inductive reply :=
| Run (m : M unit)
| SendFile (segments : list string).

(** What a library does with a request it is handed: it ends the
    response, it calls [next()], or it calls [next(err)]. *)
Inductive verdict := Ends | Next | Fails.

(** One registration on [app].  What a library middleware ([cors()],
    [bodyParser.json()], [express.static(...)]) does with a request is its
    own business, so it is a function to a verdict. *)
Inductive layer :=
| Use (name : string) (mw : request -> verdict)
| UseAt (mount : string) (name : string) (mw : request -> verdict)
| UseFn (h : request -> reply)
| Route (verb pattern : string) (h : request -> reply).

(** How a request ends up: taken by a handler of the files, ended by a
    library middleware, failed with an error passed to [next] (neither file
    registers an error handler, so Express's default one answers), or
    fallen off the end of the stack (Express's default 404). *)
Inductive disposition :=
| Handled (r : reply)
| Ended (middleware : string)
| Failed (by_whom : string)
| Unhandled.

Section Dispatch.
(** How Express matches a mount path and a route against a request, and
    what [res.sendFile] does with a path: it sends the file, calls
    [next()] when the path is a directory, or calls [next(err)]. *)
Variable mounted : string -> request -> bool.
Variable routed : string -> string -> request -> bool.
Variable send_file : list string -> request -> verdict.

(** What becomes of a request a handler has replied to, [rest] being what
    the layers after it would do. *)
Definition deliver (r : reply) (req : request) (rest : disposition)
  : disposition :=
  match r with
  | Run m => Handled (Run m)
  | SendFile segments =>
      match send_file segments req with
      | Ends => Handled (SendFile segments)
      | Next => rest
      | Fails => Failed "res.sendFile"
      end
  end.

(** What becomes of a request a library middleware is handed. *)
Definition pass (name : string) (v : verdict) (rest : disposition)
  : disposition :=
  match v with
  | Ends => Ended name
  | Next => rest
  | Fails => Failed name
  end.

(** Express tries the layers in the order of registration; the first one
    that matches and does not call [next()] disposes of the request. *)
Fixpoint dispatch (stack : list layer) (req : request) : disposition :=
  match stack with
  | [] => Unhandled
  | Use name mw :: rest => pass name (mw req) (dispatch rest req)
  | UseAt mount name mw :: rest =>
      if mounted mount req
      then pass name (mw req) (dispatch rest req)
      else dispatch rest req
  | UseFn h :: rest => deliver (h req) req (dispatch rest req)
  | Route verb pattern h :: rest =>
      if routed verb pattern req
      then deliver (h req) req (dispatch rest req)
      else dispatch rest req
  end.

(** The routes a stack registers. *)
Definition routes_of (stack : list layer) : list (string * string) :=
  flat_map
    (fun l =>
       match l with
       | Route verb pattern _ => [(verb, pattern)]
       | _ => []
       end) stack.

(** Of the routes [routes], the request matches [verb pattern] and no
    other. *)
Definition sole_match (routes : list (string * string))
    (verb pattern : string) (req : request) : Prop :=
  forall v p,
    In (v, p) routes ->
    (routed v p req = true <-> v = verb /\ p = pattern).

(** The request matches none of the routes [routes]. *)
Definition unrouted (routes : list (string * string)) (req : request)
  : Prop :=
  forall v p, In (v, p) routes -> routed v p req = false.

End Dispatch.

End Express.
Export Express.

(** The application of [src/server.js]. *)
Module ServerApp.

Section App.
Variable READER_ID : value.
Variable w : world.
Variable fuel : nat.
(** [__dirname], and the library middleware. *)
Variable dirname : string.
Variable cors json raw : request -> verdict.
Variable static : list string -> request -> verdict.

Definition ping (_ : request) : reply :=
  Run (res_json (object [("message", VStr "pong")])).

Definition index_page (_ : request) : reply :=
  SendFile [dirname; "public"; "index.html"].

Definition pos_page (_ : request) : reply :=
  SendFile [dirname; "public"; "pos.html"].

Definition webhook (_ : request) : reply :=
  Run (res_json (object [("received", VBool true)])).

Definition not_found (req : request) : reply :=
  Run (res_status_json 404
         (object [("error", VStr "Route not found");
                  ("path", VStr (req_path req))])).

Definition app : list layer :=
  [Use "cors" cors;
   Use "bodyParser.json" json;
   UseAt "/webhook" "bodyParser.raw" raw;
   Route "GET" "/ping" ping;
   Route "GET" "/" index_page;
   Route "GET" "/pos" pos_page;
   Route "POST" "/create-payment-intent"
     (fun req => Run (Server.create_payment_intent w (req_body req)));
   Route "POST" "/process-on-reader"
     (fun req => Run (Server.process_on_reader READER_ID w fuel (req_body req)));
   Route "POST" "/webhook" webhook;
   Use "express.static" (static [dirname; "public"]);
   UseFn not_found].

End App.

End ServerApp.

(** The application of [src/unnamed/part_000]. *)
Module Part000App.

Section App.
Variable READER_ID : value.
Variable w : world.
Variable fuel : nat.
Variable dirname : string.
Variable cors json raw : request -> verdict.
Variable static : list string -> request -> verdict.

Definition ping (_ : request) : reply :=
  Run (res_json (object [("message", VStr "pong")])).

Definition index_page (_ : request) : reply :=
  SendFile [dirname; "public"; "index.html"].

Definition pos_page (_ : request) : reply :=
  SendFile [dirname; "public"; "pos.html"].

Definition webhook (_ : request) : reply :=
  Run (res_json (object [("received", VBool true)])).

Definition app : list layer :=
  [Use "cors" cors;
   Use "express.static" (static [dirname; "public"]);
   Use "bodyParser.json" json;
   UseAt "/webhook" "bodyParser.raw" raw;
   Route "GET" "/ping" ping;
   Route "GET" "/" index_page;
   Route "GET" "/pos" pos_page;
   Route "POST" "/create-payment-intent"
     (fun req => Run (Part000.create_payment_intent w (req_body req)));
   Route "POST" "/process-on-reader"
     (fun req =>
        Run (Part000.process_on_reader READER_ID w fuel (req_body req)));
   Route "POST" "/cancel-payment"
     (fun _ => Run (Part000.cancel_payment READER_ID w));
   Route "POST" "/webhook" webhook].

End App.

End Part000App.

(** The request passes the middleware registered before the routes. *)
Definition passes (mounted : string -> request -> bool)
    (cors json raw : request -> verdict) (req : request) : Prop :=
  cors req = Next /\ json req = Next
  /\ (if mounted "/webhook" req then raw req else Next) = Next.

(** The request passes the middleware, is not a file of the static
    directory, and of the routes that [stack] registers matches
    [verb pattern] and no other. *)
Definition arrives_at (mounted : string -> request -> bool)
    (routed : string -> string -> request -> bool)
    (cors json raw : request -> verdict)
    (static : list string -> request -> verdict) (dirname : string)
    (stack : list layer) (verb pattern : string) (req : request) : Prop :=
  passes mounted cors json raw req
  /\ static [dirname; "public"] req = Next
  /\ sole_match routed (routes_of stack) verb pattern req.

(** A sample Express: a route matches on the method and the exact path, a
    mount path on a prefix; no middleware ends a request; files are sent;
    and static directories that hold no file, or one file. *)
Definition exact_routed (verb pattern : string) (req : request) : bool :=
  String.eqb verb (req_method req) && String.eqb pattern (req_path req).

Definition prefix_mounted (mount : string) (req : request) : bool :=
  String.prefix mount (req_path req).

Definition calls_next (_ : request) : verdict := Next.

Definition sends (_ : list string) (_ : request) : verdict := Ends.

Definition no_files (_ : list string) (_ : request) : verdict := Next.

Definition ping_file (_ : list string) (req : request) : verdict :=
  if String.eqb (req_method req) "GET" && String.eqb (req_path req) "/ping"
  then Ends else Next.

(** A static directory that holds a file named [pos], and a
    [res.sendFile] that finds a directory where the page should be. *)
Definition pos_file (_ : list string) (req : request) : verdict :=
  if String.eqb (req_method req) "GET" && String.eqb (req_path req) "/pos"
  then Ends else Next.

Definition finds_directory (_ : list string) (_ : request) : verdict := Next.

Definition http (verb path : string) (body : obj) : request :=
  {| req_method := verb; req_path := path; req_body := body |}.

(** The run has answered with success for the intent [result] and then,
    with nothing answered before and nothing after, waited 1 s, prompted
    on the reader and reported on the console; the handler has returned
    normally. *)
Definition prompted_for (READER_ID : value) (w : world) (result : obj)
    (run : outcome unit * state) : Prop :=
  exists pre t t1 t2,
    fst run = Done tt
    /\ trace (snd run)
       = pre ++ [(t, EvRespond 200 (success_body result));
                 (t, EvTimeout 1000);
                 (t1, EvCall (collect_call READER_ID));
                 (t2, collect_report READER_ID w)]
    /\ status_is result "succeeded"
    /\ (t + 1000 <= t1)%N
    /\ events_where is_respond pre = []
    /\ events_where is_collect pre = [].


(** The currency a request asks for: its [currency], or usd when it has
    none. *)
Definition currency_of (body : obj) : value :=
  match body !! "currency" with
  | None | Some VUndefined => VStr "usd"
  | Some c => c
  end.

(** * Properties *)

Arguments object : simpl never.
Arguments get : simpl never.

(** ** The test of the loop *)

Lemma strict_eq_str_status (pi : obj) (s : string) :
  strict_eq_str (get pi "status") s = true <-> status_is pi s.
Proof.
  unfold status_is, get, strict_eq_str.
  destruct (pi !! "status") as [[]|]; simpl; split; try discriminate.
  - intros H. apply String.eqb_eq in H. by subst.
  - intros [= ->]. apply String.eqb_refl.
Qed.

Lemma strict_eq_str_not_status (pi : obj) (s : string) :
  strict_eq_str (get pi "status") s = false <-> ~ status_is pi s.
Proof.
  rewrite <- strict_eq_str_status.
  destruct (strict_eq_str (get pi "status") s); split; intros; congruence.
Qed.

(** ** One unfolding of [poll] *)

Section Poll.
Variable w : world.
Variable id : value.

Lemma poll_round fuel s pi :
  on_retrieve w id (polls s) = Ok pi ->
  ~ status_is pi "succeeded" ->
  Server.poll w (S fuel) id s = Server.poll w fuel id (after_round w id s).
Proof.
  intros Hret Hst. apply strict_eq_str_not_status in Hst.
  simpl. unfold bind at 1. unfold paymentIntents_retrieve.
  unfold bind at 1. simpl. unfold await_call, bind at 1. simpl.
  unfold bind at 1. simpl. rewrite Hret. simpl. rewrite Hst.
  unfold bind at 1. reflexivity.
Qed.

Lemma poll_succeeded fuel s pi :
  on_retrieve w id (polls s) = Ok pi ->
  status_is pi "succeeded" ->
  Server.poll w (S fuel) id s = (Done pi, after_fetch w id s).
Proof.
  intros Hret Hst. apply strict_eq_str_status in Hst.
  simpl. unfold bind at 1. unfold paymentIntents_retrieve.
  unfold bind at 1. simpl. unfold await_call, bind at 1. simpl.
  unfold bind at 1. simpl. rewrite Hret. simpl. rewrite Hst.
  reflexivity.
Qed.

Lemma poll_failed fuel s e :
  on_retrieve w id (polls s) = Err e ->
  Server.poll w (S fuel) id s = (Thrown e, after_fetch w id s).
Proof.
  intros Hret.
  simpl. unfold bind at 1. unfold paymentIntents_retrieve.
  unfold bind at 1. simpl. unfold await_call, bind at 1. simpl.
  unfold bind at 1. simpl. rewrite Hret. reflexivity.
Qed.

End Poll.

(** ** What a fetch, a timer and a round do to the state *)

Lemma times_of_app p (tr tr' : list (N * event)) :
  times_of p (tr ++ tr') = times_of p tr ++ times_of p tr'.
Proof. unfold times_of, events_where. by rewrite List.filter_app, List.map_app. Qed.

Lemma events_where_app p (tr tr' : list (N * event)) :
  events_where p (tr ++ tr') = events_where p tr ++ events_where p tr'.
Proof. unfold events_where. by rewrite List.filter_app. Qed.

Lemma spaced_snoc d (ts : list N) (c : N) :
  spaced d ts ->
  (forall t, last ts = Some t -> (t + d <= c)%N) ->
  spaced d (ts ++ [c]).
Proof.
  induction ts as [|t [|t' rest] IH]; intros Hsp Hlast.
  - simpl. done.
  - simpl. split; [|done]. apply Hlast. reflexivity.
  - destruct Hsp as [Hfirst Hrest].
    change (((t + d <= t')%N) /\ spaced d ((t' :: rest) ++ [c])).
    split; [exact Hfirst|]. apply IH; [exact Hrest|].
    intros u Hu. apply Hlast. exact Hu.
Qed.

Section Rounds.
Variable w : world.
Variable id : value.

Lemma after_call_trace c s :
  trace (after_call w c s) = trace s ++ [(clock s, EvCall c)].
Proof. reflexivity. Qed.

Lemma after_call_clock c s : (clock s <= clock (after_call w c s))%N.
Proof. unfold after_call, waited, logged. simpl. lia. Qed.

Lemma after_fetch_trace s :
  trace (after_fetch w id s)
  = trace s ++ [(clock s, EvCall (PaymentIntentsRetrieve id))].
Proof. reflexivity. Qed.

Lemma after_fetch_polls s : polls (after_fetch w id s) = S (polls s).
Proof. reflexivity. Qed.

Lemma after_fetch_clock s : (clock s <= clock (after_fetch w id s))%N.
Proof. unfold after_fetch. etrans; [|apply after_call_clock]. reflexivity. Qed.

Lemma after_timeout_trace ms s :
  trace (after_timeout w ms s) = trace s ++ [(clock s, EvTimeout ms)].
Proof. reflexivity. Qed.

Lemma after_timeout_clock ms s :
  (clock s + ms <= clock (after_timeout w ms s))%N.
Proof. unfold after_timeout, waited, logged. simpl. lia. Qed.

Lemma after_round_trace s :
  trace (after_round w id s)
  = trace s ++ [(clock s, EvCall (PaymentIntentsRetrieve id));
                (clock (after_fetch w id s), EvTimeout 1500)].
Proof.
  unfold after_round. rewrite after_timeout_trace, after_fetch_trace.
  by rewrite <- app_assoc.
Qed.

Lemma after_round_polls s : polls (after_round w id s) = S (polls s).
Proof. reflexivity. Qed.

Lemma after_round_clock s :
  (clock s + 1500 <= clock (after_round w id s))%N.
Proof.
  unfold after_round.
  pose proof (after_timeout_clock 1500 (after_fetch w id s)).
  pose proof (after_fetch_clock s). lia.
Qed.

(** A fetch issued when the loop is ready keeps the fetches spaced. *)
Lemma fetch_spaced d s :
  fetch_ready d s -> spaced d (times_of is_fetch (trace (after_fetch w id s))).
Proof.
  intros [Hsp Hlast]. rewrite after_fetch_trace, times_of_app.
  apply spaced_snoc; assumption.
Qed.

Lemma after_round_ready s :
  fetch_ready 1500 s -> fetch_ready 1500 (after_round w id s).
Proof.
  intros [Hsp Hlast]. unfold fetch_ready.
  rewrite after_round_trace, times_of_app.
  change (times_of is_fetch
            [(clock s, EvCall (PaymentIntentsRetrieve id));
             (clock (after_fetch w id s), EvTimeout 1500)])
    with [clock s].
  split.
  - apply spaced_snoc; assumption.
  - intros t. rewrite last_snoc. intros [= <-]. apply after_round_clock.
Qed.

Lemma after_rounds_polls n s : polls (after_rounds w id n s) = polls s + n.
Proof.
  revert s. induction n as [|n IH]; intros s; simpl.
  - lia.
  - rewrite IH, after_round_polls. lia.
Qed.

Lemma after_rounds_ready n s :
  fetch_ready 1500 s -> fetch_ready 1500 (after_rounds w id n s).
Proof.
  revert s. induction n as [|n IH]; intros s Hs; simpl.
  - exact Hs.
  - apply IH, after_round_ready, Hs.
Qed.

(** The events of [n] rounds: fetch, timer, fetch, timer, ... *)
Lemma after_rounds_events n s :
  (trace (after_rounds w id n s)).*2
  = (trace s).*2 ++ concat (replicate n (round_events id)).
Proof.
  revert s. induction n as [|n IH]; intros s; simpl.
  - by rewrite app_nil_r.
  - rewrite IH, after_round_trace, fmap_app, <- app_assoc. reflexivity.
Qed.

Lemma after_rounds_fetches n s :
  length (times_of is_fetch (trace (after_rounds w id n s)))
  = length (times_of is_fetch (trace s)) + n.
Proof.
  revert s. induction n as [|n IH]; intros s; simpl.
  - lia.
  - rewrite IH, after_round_trace, times_of_app, length_app. simpl. lia.
Qed.

Lemma after_rounds_where p n s :
  p (EvCall (PaymentIntentsRetrieve id)) = false ->
  p (EvTimeout 1500) = false ->
  events_where p (trace (after_rounds w id n s)) = events_where p (trace s).
Proof.
  intros Hf Ht. revert s. induction n as [|n IH]; intros s; simpl.
  - reflexivity.
  - rewrite IH, after_round_trace, events_where_app.
    unfold events_where at 2. simpl. rewrite Hf, Ht. apply app_nil_r.
Qed.

(** While the processor answers with statuses other than succeeded, the
    loop goes round: [n] such answers are [n] rounds. *)
Lemma poll_rounds n fuel s :
  (forall k, k < n ->
     exists pi, on_retrieve w id (polls s + k) = Ok pi
                /\ ~ status_is pi "succeeded") ->
  Server.poll w (n + fuel) id s
  = Server.poll w fuel id (after_rounds w id n s).
Proof.
  revert s. induction n as [|n IH]; intros s Hans.
  - reflexivity.
  - destruct (Hans 0) as (pi & Hpi & Hst); [lia|].
    rewrite Nat.add_0_r in Hpi.
    change (S n + fuel) with (S (n + fuel)).
    rewrite (poll_round w id _ s pi Hpi Hst). simpl. apply IH.
    intros k Hk. destruct (Hans (S k)) as (pi' & Hpi' & Hst'); [lia|].
    exists pi'. split; [|exact Hst'].
    rewrite after_round_polls. rewrite <- Hpi'. f_equal. lia.
Qed.

(** So a loop observed for [n] fetches, none of which reports
    succeeded, is still pending after [n] rounds. *)
Lemma poll_pending n s :
  (forall k, k < n ->
     exists pi, on_retrieve w id (polls s + k) = Ok pi
                /\ ~ status_is pi "succeeded") ->
  Server.poll w n id s = (Pending, after_rounds w id n s).
Proof.
  intros Hans. pose proof (poll_rounds n 0 s Hans) as H.
  rewrite Nat.add_0_r in H. exact H.
Qed.

End Rounds.

(** ** The process-on-reader handler, path by path *)

Section ProcessOnReader.
Variable READER_ID : value.
Variable w : world.

Lemma process_on_reader_same :
  Part000.process_on_reader READER_ID w = Server.process_on_reader READER_ID w.
Proof. reflexivity. Qed.

Lemma process_on_reader_missing fuel body s :
  truthy (get body "payment_intent") = false ->
  Server.process_on_reader READER_ID w fuel body s
  = (Done tt, logged (EvRespond 400 (error_body "Missing payment_intent")) s).
Proof.
  intros Hid. unfold Server.process_on_reader, try_catch.
  rewrite Hid. reflexivity.
Qed.

Lemma process_on_reader_refused fuel body s e :
  truthy (get body "payment_intent") = true ->
  on_process w READER_ID
    (object [("payment_intent", get body "payment_intent")]) = Err e ->
  Server.process_on_reader READER_ID w fuel body s
  = (Done tt,
     after_catch "❌ Error processing payment on reader:" e
       (after_call w (process_call READER_ID (get body "payment_intent")) s)).
Proof.
  intros Hid Hproc. unfold Server.process_on_reader, try_catch.
  rewrite Hid. simpl. unfold bind at 1.
  unfold readers_processPaymentIntent, await_call.
  unfold bind at 1. simpl. unfold bind at 1. simpl.
  rewrite Hproc. reflexivity.
Qed.

Lemma process_on_reader_polling fuel body s :
  truthy (get body "payment_intent") = true ->
  on_process w READER_ID
    (object [("payment_intent", get body "payment_intent")]) = Ok tt ->
  Server.process_on_reader READER_ID w fuel body s
  = match Server.poll w fuel (get body "payment_intent")
            (after_call w
               (process_call READER_ID (get body "payment_intent")) s) with
    | (Done result, s1) =>
        (Done tt,
         if strict_eq_str (get result "status") "succeeded"
         then after_prompt READER_ID w
                (logged (EvRespond 200 (success_body result)) s1)
         else logged (EvRespond 200 (success_body result)) s1)
    | (Thrown e, s1) =>
        (Done tt, after_catch "❌ Error processing payment on reader:" e s1)
    | (Pending, s1) => (Pending, s1)
    end.
Proof.
  intros Hid Hproc. unfold Server.process_on_reader, try_catch.
  rewrite Hid. simpl. unfold bind at 1.
  unfold readers_processPaymentIntent, await_call.
  unfold bind at 1. simpl. unfold bind at 1. simpl.
  rewrite Hproc. simpl. unfold bind at 1.
  fold (process_call READER_ID (get body "payment_intent")).
  change (waited _ (logged (EvCall ?c) s)) with (after_call w c s).
  destruct (Server.poll w fuel _ _) as [[result|e|] s1]; try reflexivity.
  unfold bind at 1. simpl.
  destruct (strict_eq_str (get result "status") "succeeded"); [|reflexivity].
  unfold bind at 1. simpl. unfold bind at 1.
  unfold readers_collectInputs, await_call.
  unfold bind at 1. simpl. unfold bind at 1. simpl.
  unfold after_prompt, collect_report, collect_call.
  destruct (on_collect w READER_ID Server.contact_prompt); reflexivity.
Qed.

(** Whatever the processor answers, the loop only fetches and waits,
    and it returns nothing but an intent that has succeeded. *)
Lemma poll_quiet id fuel s :
  exists evs,
    trace (snd (Server.poll w fuel id s)) = trace s ++ evs
    /\ (clock s <= clock (snd (Server.poll w fuel id s)))%N
    /\ (forall p, p (EvCall (PaymentIntentsRetrieve id)) = false ->
                  p (EvTimeout 1500) = false ->
                  events_where p evs = [])
    /\ (forall result, fst (Server.poll w fuel id s) = Done result ->
                       status_is result "succeeded").
Proof.
  revert s. induction fuel as [|fuel IH]; intros s.
  - exists []. simpl. rewrite app_nil_r. repeat split; done.
  - destruct (on_retrieve w id (polls s)) as [pi|e] eqn:Hret.
    + destruct (strict_eq_str (get pi "status") "succeeded") eqn:Hst.
      * apply strict_eq_str_status in Hst.
        rewrite (poll_succeeded w id fuel s pi Hret Hst). simpl fst; simpl snd.
        exists [(clock s, EvCall (PaymentIntentsRetrieve id))].
        split; [apply after_fetch_trace|].
        split; [apply after_fetch_clock|]. split.
        -- intros p Hf _. unfold events_where. simpl. by rewrite Hf.
        -- by intros result [= <-].
      * apply strict_eq_str_not_status in Hst.
        rewrite (poll_round w id fuel s pi Hret Hst).
        destruct (IH (after_round w id s)) as (evs & Htr & Hclk & Hq & Hdone).
        exists ([(clock s, EvCall (PaymentIntentsRetrieve id));
                 (clock (after_fetch w id s), EvTimeout 1500)] ++ evs).
        split; [by rewrite Htr, after_round_trace, <- app_assoc|].
        split; [pose proof (after_round_clock w id s); lia|]. split.
        -- intros p Hf Ht. rewrite events_where_app, (Hq p Hf Ht).
           unfold events_where. simpl. by rewrite Hf, Ht.
        -- exact Hdone.
    + rewrite (poll_failed w id fuel s e Hret). simpl fst; simpl snd.
      exists [(clock s, EvCall (PaymentIntentsRetrieve id))].
      split; [apply after_fetch_trace|].
      split; [apply after_fetch_clock|]. split.
      * intros p Hf _. unfold events_where. simpl. by rewrite Hf.
      * intros result [=].
Qed.

End ProcessOnReader.

Lemma logged_trace ev s : trace (logged ev s) = trace s ++ [(clock s, ev)].
Proof. reflexivity. Qed.

Lemma after_prompt_trace READER_ID w s :
  trace (after_prompt READER_ID w s)
  = trace s ++ [(clock s, EvTimeout 1000);
                (clock (after_timeout w 1000 s), EvCall (collect_call READER_ID));
                (clock (after_call w (collect_call READER_ID)
                          (after_timeout w 1000 s)),
                 collect_report READER_ID w)].
Proof.
  unfold after_prompt, logged. simpl.
  rewrite <- !app_assoc. reflexivity.
Qed.

Lemma status_processing_not_succeeded (pi : obj) :
  status_is pi "processing" -> ~ status_is pi "succeeded".
Proof. unfold status_is. intros -> [=]. Qed.

Lemma collect_report_not_fetch READER_ID w t :
  events_where is_fetch [(t, collect_report READER_ID w)] = [].
Proof. unfold collect_report. by destruct (on_collect _ _ _). Qed.

Lemma collect_report_not_respond READER_ID w t :
  events_where is_respond [(t, collect_report READER_ID w)] = [].
Proof. unfold collect_report. by destruct (on_collect _ _ _). Qed.

(** ** The polling loop *)

(** C1. Once the reader has been instructed, the loop tests only for
    succeeded: if no status fetch ever reports succeeded, then however
    many fetches are observed the handler is still pending after them,
    each fetch has been followed by a 1.5 s timer and the next fetch, and
    no response has been sent.  Both variants. *)
Theorem poll_never_responds_without_success
    (READER_ID : value) (w : world) (body : obj) (fuel : nat) :
  truthy (get body "payment_intent") = true ->
  on_process w READER_ID
    (object [("payment_intent", get body "payment_intent")]) = Ok tt ->
  (forall k, exists pi,
      on_retrieve w (get body "payment_intent") k = Ok pi
      /\ ~ status_is pi "succeeded") ->
  keeps_polling READER_ID (get body "payment_intent") fuel
    (Server.process_on_reader READER_ID w fuel body init)
  /\ keeps_polling READER_ID (get body "payment_intent") fuel
       (Part000.process_on_reader READER_ID w fuel body init).
Proof.
  intros Hid Hproc Hnever.
  change (Part000.process_on_reader READER_ID w fuel body init)
    with (Server.process_on_reader READER_ID w fuel body init).
  assert (keeps_polling READER_ID (get body "payment_intent") fuel
            (Server.process_on_reader READER_ID w fuel body init)) as H;
    [|by split].
  rewrite (process_on_reader_polling _ _ _ _ _ Hid Hproc).
  rewrite poll_pending by (intros k _; apply Hnever).
  unfold keeps_polling. simpl. split; [reflexivity|]. split.
  - by rewrite after_rounds_events.
  - by rewrite after_rounds_where.
Qed.

Lemma poll_never_responds_without_success_witness :
  keeps_polling reader (get on_reader_request "payment_intent") 4
    (Server.process_on_reader reader canceled_forever 4 on_reader_request init)
  /\ keeps_polling reader (get on_reader_request "payment_intent") 4
       (Part000.process_on_reader reader canceled_forever 4
          on_reader_request init).
Proof.
  apply (poll_never_responds_without_success
           reader canceled_forever on_reader_request 4).
  - reflexivity.
  - reflexivity.
  - intros k. exists (intent "pi_1" "canceled").
    split; [reflexivity|]. vm_compute. discriminate.
Defined.

(** C2. For every N >= 1, if the processor reports processing on polls
    1 to N-1 and succeeded on poll N, the handler, once the reader has
    been instructed, answers with the intent of poll N after exactly N
    status fetches, consecutive fetches being at least 1.5 s apart; no
    fetch follows the answer.  Both variants. *)
Theorem poll_succeeds_on_nth_fetch
    (READER_ID : value) (w : world) (body : obj) (n fuel : nat) (pi_n : obj) :
  truthy (get body "payment_intent") = true ->
  on_process w READER_ID
    (object [("payment_intent", get body "payment_intent")]) = Ok tt ->
  1 <= n ->
  (forall k, k < n - 1 ->
     exists pi, on_retrieve w (get body "payment_intent") k = Ok pi
                /\ status_is pi "processing") ->
  on_retrieve w (get body "payment_intent") (n - 1) = Ok pi_n ->
  status_is pi_n "succeeded" ->
  n <= fuel ->
  responds_after n (success_body pi_n)
    (trace (snd (Server.process_on_reader READER_ID w fuel body init)))
  /\ responds_after n (success_body pi_n)
       (trace (snd (Part000.process_on_reader READER_ID w fuel body init))).
Proof.
  intros Hid Hproc Hn Hproc_ing Hlast Hsucc Hfuel.
  change (Part000.process_on_reader READER_ID w fuel body init)
    with (Server.process_on_reader READER_ID w fuel body init).
  assert (responds_after n (success_body pi_n)
            (trace (snd (Server.process_on_reader READER_ID w fuel body init))))
    as H; [|by split].
  rewrite (process_on_reader_polling _ _ _ _ _ Hid Hproc).
  set (id := get body "payment_intent") in *.
  set (s0 := after_call w (process_call READER_ID id) init).
  replace fuel with ((n - 1) + S (fuel - n)) by lia.
  rewrite poll_rounds.
  2:{ intros k Hk. destruct (Hproc_ing k Hk) as (pi & Hpi & Hst).
      exists pi. split; [exact Hpi|].
      by apply status_processing_not_succeeded. }
  set (s1 := after_rounds w id (n - 1) s0).
  assert (polls s1 = n - 1) as Hpolls.
  { unfold s1. rewrite after_rounds_polls. reflexivity. }
  rewrite (poll_succeeded w id _ s1 pi_n) by (by rewrite ?Hpolls).
  apply strict_eq_str_status in Hsucc as Htest. rewrite Htest. simpl snd.
  rewrite after_prompt_trace, logged_trace, <- app_assoc.
  exists (trace (after_fetch w id s1)).
  eexists. eexists. split; [reflexivity|].
  assert (fetch_ready 1500 s1) as Hready.
  { apply after_rounds_ready. split; [exact I|]. intros t [=]. }
  split; [|split; [|split]].
  - rewrite after_fetch_trace, times_of_app, length_app.
    unfold s1. rewrite after_rounds_fetches. simpl. lia.
  - by apply fetch_spaced.
  - rewrite after_fetch_trace, events_where_app.
    unfold s1. by rewrite after_rounds_where.
  - change (events_where is_fetch [?a; ?b; ?c])
      with (events_where is_fetch [c]).
    apply collect_report_not_fetch.
Qed.

Lemma poll_succeeds_on_nth_fetch_witness :
  responds_after 3 (success_body (intent "pi_1" "succeeded"))
    (trace (snd (Server.process_on_reader reader third_time_lucky 5
                   on_reader_request init)))
  /\ responds_after 3 (success_body (intent "pi_1" "succeeded"))
       (trace (snd (Part000.process_on_reader reader third_time_lucky 5
                      on_reader_request init))).
Proof.
  apply (poll_succeeds_on_nth_fetch
           reader third_time_lucky on_reader_request 3 5
           (intent "pi_1" "succeeded")).
  - reflexivity.
  - reflexivity.
  - lia.
  - intros k Hk. exists (intent "pi_1" "processing").
    split; [|reflexivity].
    destruct k as [|[|k]]; [reflexivity|reflexivity|simpl in Hk; lia].
  - reflexivity.
  - reflexivity.
  - lia.
Defined.

(** ** The create-payment-intent handlers, path by path *)

Section Create.
Variable w : world.

Lemma server_create_missing body s :
  truthy (get body "amount") = false ->
  Server.create_payment_intent w body s
  = (Done tt, logged (EvRespond 400 (error_body "Missing amount")) s).
Proof.
  intros Ha. unfold Server.create_payment_intent, try_catch.
  rewrite Ha. reflexivity.
Qed.

Lemma part000_create_missing body s :
  truthy (get body "amount") = false ->
  Part000.create_payment_intent w body s
  = (Done tt, logged (EvRespond 400 (error_body "Missing amount")) s).
Proof.
  intros Ha. unfold Part000.create_payment_intent, try_catch.
  rewrite Ha. reflexivity.
Qed.

Lemma server_create_calls body s :
  truthy (get body "amount") = true ->
  Server.create_payment_intent w body s
  = (Done tt, after_create w (server_params body) s).
Proof.
  intros Ha. unfold Server.create_payment_intent, try_catch.
  rewrite Ha. simpl. unfold bind at 1.
  unfold paymentIntents_create, await_call.
  unfold bind at 1. simpl. unfold bind at 1. simpl.
  fold (server_params body). unfold after_create.
  destruct (on_create w (server_params body)); reflexivity.
Qed.

Lemma part000_create_calls body s :
  truthy (get body "amount") = true ->
  Part000.create_payment_intent w body s
  = (Done tt, after_create w (part000_params body) s).
Proof.
  intros Ha. unfold Part000.create_payment_intent, try_catch.
  rewrite Ha. simpl. unfold bind at 1.
  unfold paymentIntents_create, await_call.
  unfold bind at 1. simpl. unfold bind at 1. simpl.
  fold (customer_email body). fold (part000_params body).
  unfold after_create.
  destruct (on_create w (part000_params body)); reflexivity.
Qed.

Lemma after_create_events p s :
  (trace (after_create w p s)).*2
  = (trace s).*2
    ++ EvCall (PaymentIntentsCreate p)
       :: match on_create w p with
          | Ok paymentIntent =>
              [EvConsole Log "✅ Created PaymentIntent: "
                 [get paymentIntent "id"];
               EvRespond 200
                 (object [("payment_intent", get paymentIntent "id")])]
          | Err err =>
              [EvConsole Error "❌ Stripe error creating payment intent:"
                 [VStr (message err)];
               EvRespond 500 (error_body (message err))]
          end.
Proof.
  unfold after_create.
  destruct (on_create w p); simpl; rewrite !fmap_app, <- !app_assoc;
    reflexivity.
Qed.

Lemma server_creation_call body :
  truthy (get body "amount") = true ->
  creation_call (Server.create_payment_intent w body init)
                (server_params body).
Proof.
  intros Ha. unfold creation_call.
  rewrite (server_create_calls _ _ Ha). simpl snd.
  by rewrite after_create_events.
Qed.

Lemma part000_creation_call body :
  truthy (get body "amount") = true ->
  creation_call (Part000.create_payment_intent w body init)
                (part000_params body).
Proof.
  intros Ha. unfold creation_call.
  rewrite (part000_create_calls _ _ Ha). simpl snd.
  by rewrite after_create_events.
Qed.

Lemma creation_call_unique run p p' :
  creation_call run p -> creation_call run p' -> p = p'.
Proof. unfold creation_call. intros -> [=]. done. Qed.

End Create.

Lemma or_truthy a b : truthy a = true -> or a b = a.
Proof. unfold or. by intros ->. Qed.

Lemma or_falsy a b : truthy a = false -> or a b = b.
Proof. unfold or. by intros ->. Qed.

Lemma get_missing (body : obj) k : body !! k = None -> get body k = VUndefined.
Proof. unfold get. by intros ->. Qed.

(** The tag wins over whatever the request's metadata held. *)
Lemma part000_metadata_tagged body :
  truthy (customer_email body) = true ->
  exists m, metadata (part000_params body) = VObj m
            /\ m !! "customer_email" = Some (customer_email body).
Proof.
  intros Hce. eexists. split; [reflexivity|].
  rewrite Hce. unfold spread at 1, object. simpl own_props.
  apply lookup_union_Some_l. apply lookup_insert_eq.
Qed.

(** ** Creation *)

Lemma customer_email_either body :
  truthy (get body "email") = true
  \/ truthy (get body "receipt_email") = true ->
  customer_email body = or (get body "email") (get body "receipt_email")
  /\ truthy (customer_email body) = true.
Proof.
  intros Hmail.
  assert (truthy (or (get body "email") (get body "receipt_email")) = true)
    as Hor.
  { unfold or. destruct (truthy (get body "email")) eqn:He; [exact He|].
    by destruct Hmail. }
  unfold customer_email. by rewrite (or_truthy _ VNull Hor).
Qed.

Lemma part000_tags_and_receipts w body :
  truthy (get body "amount") = true ->
  truthy (customer_email body) = true ->
  tags_and_receipts (customer_email body)
    (Part000.create_payment_intent w body init).
Proof.
  intros Ha Hce.
  destruct (part000_metadata_tagged body Hce) as (m & Hmd & Htag).
  exists (part000_params body), m.
  split; [by apply part000_creation_call|].
  split; [exact Hmd|]. split; [exact Htag|].
  simpl. by apply or_truthy.
Qed.

Lemma server_receipts w body :
  truthy (get body "amount") = true ->
  receipts (or (get body "email") VUndefined)
    (Server.create_payment_intent w body init).
Proof.
  intros Ha. exists (server_params body).
  split; [by apply server_creation_call|done].
Qed.

(** C3, as the code has it.  For a request that passes the amount check
    and carries a truthy [email] or [receipt_email]: the second variant
    tags the stored metadata with [customer_email = email || receipt_email]
    and asks for a receipt at that same address; [src/server.js] forwards
    the metadata as sent, untagged, and asks for a receipt at [email] only
    (the request's [receipt_email] is not read). *)
Theorem contact_email_tag_and_receipt (w : world) (body : obj) :
  truthy (get body "amount") = true ->
  truthy (get body "email") = true
  \/ truthy (get body "receipt_email") = true ->
  tags_and_receipts (or (get body "email") (get body "receipt_email"))
    (Part000.create_payment_intent w body init)
  /\ forwards_metadata (with_default (get body "metadata") (VObj ∅))
       (Server.create_payment_intent w body init)
  /\ receipts (or (get body "email") VUndefined)
       (Server.create_payment_intent w body init).
Proof.
  intros Ha Hmail.
  destruct (customer_email_either body Hmail) as [Hce Htr].
  split; [|split].
  - rewrite <- Hce. by apply part000_tags_and_receipts.
  - exists (server_params body). split; [by apply server_creation_call|done].
  - by apply server_receipts.
Qed.

Lemma contact_email_tag_and_receipt_witness :
  tags_and_receipts
    (or (get receipt_only_sale "email") (get receipt_only_sale "receipt_email"))
    (Part000.create_payment_intent third_time_lucky receipt_only_sale init)
  /\ forwards_metadata
       (with_default (get receipt_only_sale "metadata") (VObj ∅))
       (Server.create_payment_intent third_time_lucky receipt_only_sale init)
  /\ receipts (or (get receipt_only_sale "email") VUndefined)
       (Server.create_payment_intent third_time_lucky receipt_only_sale init).
Proof.
  apply (contact_email_tag_and_receipt third_time_lucky receipt_only_sale).
  - reflexivity.
  - right. reflexivity.
Defined.

(** C3, as stated, fails on [src/server.js]: a sale with an [email] is
    created with untagged metadata. *)
Lemma server_js_does_not_tag_metadata :
  ~ tags_and_receipts (VStr "a@b.c")
      (Server.create_payment_intent third_time_lucky emailed_sale init).
Proof.
  intros (p & m & Hcall & Hmd & Htag & _).
  pose proof (server_creation_call third_time_lucky emailed_sale eq_refl)
    as Hcall'.
  rewrite (creation_call_unique _ _ _ Hcall Hcall') in Hmd.
  vm_compute in Hmd. injection Hmd as <-.
  vm_compute in Htag. discriminate.
Qed.




(** An [email] that is the empty string counts as not supplied: the
    second variant falls back to [receipt_email]. *)
Lemma empty_email_falls_back (body : obj) :
  get body "email" = VStr "" ->
  customer_email body = or (get body "receipt_email") VNull.
Proof. unfold customer_email. by intros ->. Qed.

(** C8. For every successful creation, the [payment_intent] of the
    response is the [id] of the object the processor's creation call
    returned, selected and nothing else.  Each variant on its own: what
    the processor would answer to the other variant's call plays no
    part. *)
Theorem created_id_passed_through
    (w : world) (body : obj) (paymentIntent : obj) :
  truthy (get body "amount") = true ->
  (on_create w (server_params body) = Ok paymentIntent ->
   completes_with
     [EvCall (PaymentIntentsCreate (server_params body));
      EvConsole Log "✅ Created PaymentIntent: " [get paymentIntent "id"];
      EvRespond 200 (object [("payment_intent", get paymentIntent "id")])]
     (Server.create_payment_intent w body init))
  /\ (on_create w (part000_params body) = Ok paymentIntent ->
      completes_with
        [EvCall (PaymentIntentsCreate (part000_params body));
         EvConsole Log "✅ Created PaymentIntent: " [get paymentIntent "id"];
         EvRespond 200 (object [("payment_intent", get paymentIntent "id")])]
        (Part000.create_payment_intent w body init)).
Proof.
  intros Ha. split; intros Hok; unfold completes_with.
  - rewrite (server_create_calls _ _ _ Ha). split; [reflexivity|].
    simpl snd. by rewrite after_create_events, Hok.
  - rewrite (part000_create_calls _ _ _ Ha). split; [reflexivity|].
    simpl snd. by rewrite after_create_events, Hok.
Qed.

Lemma created_id_passed_through_witness :
  completes_with
    [EvCall (PaymentIntentsCreate (server_params emailed_sale));
     EvConsole Log "✅ Created PaymentIntent: "
       [get (intent "pi_1" "requires_payment_method") "id"];
     EvRespond 200
       (object [("payment_intent",
                 get (intent "pi_1" "requires_payment_method") "id")])]
    (Server.create_payment_intent third_time_lucky emailed_sale init)
  /\ completes_with
       [EvCall (PaymentIntentsCreate (part000_params emailed_sale));
        EvConsole Log "✅ Created PaymentIntent: "
          [get (intent "pi_1" "requires_payment_method") "id"];
        EvRespond 200
          (object [("payment_intent",
                    get (intent "pi_1" "requires_payment_method") "id")])]
       (Part000.create_payment_intent third_time_lucky emailed_sale init).
Proof.
  destruct (created_id_passed_through third_time_lucky emailed_sale
              (intent "pi_1" "requires_payment_method") eq_refl)
    as [Hserver Hpart000].
  split; [apply Hserver|apply Hpart000]; reflexivity.
Defined.

Lemma truthy_number (q : Q) :
  truthy (VNum (Fin q)) = negb (Qeq_bool q 0).
Proof. by destruct q as [[|n|n] d]. Qed.

(** C10. The amount check is truthiness.  A request whose amount is
    falsy is answered 400 Missing amount and nothing else happens; a
    request whose amount is truthy is forwarded to the processor with that
    very amount.  Zero and the empty string are falsy; every other finite
    number (so every negative and every fractional one) and a non-numeric
    string are truthy.  Both variants. *)
Theorem amount_check_is_truthiness (w : world) (body : obj) :
  (if truthy (get body "amount")
   then forwards_amount (get body "amount")
          (Server.create_payment_intent w body init)
        /\ forwards_amount (get body "amount")
             (Part000.create_payment_intent w body init)
   else completes_with [EvRespond 400 (error_body "Missing amount")]
          (Server.create_payment_intent w body init)
        /\ completes_with [EvRespond 400 (error_body "Missing amount")]
             (Part000.create_payment_intent w body init))
  /\ truthy (VNum (Fin 0)) = false
  /\ truthy (VStr "") = false
  /\ (forall q : Q, truthy (VNum (Fin q)) = negb (Qeq_bool q 0))
  /\ truthy (VNum (Fin (-5))) = true
  /\ truthy (VNum (Fin (1 # 2))) = true
  /\ truthy (VStr "abc") = true.
Proof.
  split; [|repeat split; try reflexivity; apply truthy_number].
  destruct (truthy (get body "amount")) eqn:Ha.
  - split.
    + exists (server_params body). split; [by apply server_creation_call|done].
    + exists (part000_params body).
      split; [by apply part000_creation_call|done].
  - rewrite (server_create_missing _ _ _ Ha), (part000_create_missing _ _ _ Ha).
    by split.
Qed.

(** ** Missing fields and processor errors *)

(** C5. A create-payment-intent request without [amount], and a
    process-on-reader request without [payment_intent], are answered 400
    with a message that names the missing field, and that answer is the
    only event of the run: no call reaches the processor.  Both variants. *)
Theorem missing_required_field_rejected
    (READER_ID : value) (w : world) (fuel : nat)
    (create_body reader_body : obj) :
  create_body !! "amount" = None ->
  reader_body !! "payment_intent" = None ->
  completes_with [EvRespond 400 (error_body "Missing amount")]
    (Server.create_payment_intent w create_body init)
  /\ completes_with [EvRespond 400 (error_body "Missing amount")]
       (Part000.create_payment_intent w create_body init)
  /\ completes_with [EvRespond 400 (error_body "Missing payment_intent")]
       (Server.process_on_reader READER_ID w fuel reader_body init)
  /\ completes_with [EvRespond 400 (error_body "Missing payment_intent")]
       (Part000.process_on_reader READER_ID w fuel reader_body init).
Proof.
  intros Ha Hid.
  apply get_missing in Ha. apply get_missing in Hid.
  change (Part000.process_on_reader READER_ID w fuel reader_body init)
    with (Server.process_on_reader READER_ID w fuel reader_body init).
  rewrite server_create_missing, part000_create_missing,
    process_on_reader_missing by (by rewrite ?Ha, ?Hid).
  by repeat split.
Qed.

Lemma missing_required_field_rejected_witness :
  completes_with [EvRespond 400 (error_body "Missing amount")]
    (Server.create_payment_intent third_time_lucky empty_request init)
  /\ completes_with [EvRespond 400 (error_body "Missing amount")]
       (Part000.create_payment_intent third_time_lucky empty_request init)
  /\ completes_with [EvRespond 400 (error_body "Missing payment_intent")]
       (Server.process_on_reader reader third_time_lucky 3 empty_request init)
  /\ completes_with [EvRespond 400 (error_body "Missing payment_intent")]
       (Part000.process_on_reader reader third_time_lucky 3 empty_request
          init).
Proof.
  apply (missing_required_field_rejected
           reader third_time_lucky 3 empty_request empty_request);
    reflexivity.
Defined.

(** C6. If the call that instructs the reader fails, the run is that
    call, the error on the console and a 500 response whose [error] is the
    processor's message, unchanged; no status is fetched.  Both variants. *)
Theorem instruct_error_aborts
    (READER_ID : value) (w : world) (fuel : nat) (body : obj) (err : error) :
  truthy (get body "payment_intent") = true ->
  on_process w READER_ID
    (object [("payment_intent", get body "payment_intent")]) = Err err ->
  completes_with
    [EvCall (process_call READER_ID (get body "payment_intent"));
     EvConsole Error "❌ Error processing payment on reader:"
       [VStr (message err)];
     EvRespond 500 (object [("error", VStr (message err))])]
    (Server.process_on_reader READER_ID w fuel body init)
  /\ completes_with
       [EvCall (process_call READER_ID (get body "payment_intent"));
        EvConsole Error "❌ Error processing payment on reader:"
          [VStr (message err)];
        EvRespond 500 (object [("error", VStr (message err))])]
       (Part000.process_on_reader READER_ID w fuel body init).
Proof.
  intros Hid Hproc.
  change (Part000.process_on_reader READER_ID w fuel body init)
    with (Server.process_on_reader READER_ID w fuel body init).
  rewrite (process_on_reader_refused _ _ _ _ _ _ Hid Hproc).
  by repeat split.
Qed.

Lemma instruct_error_aborts_witness :
  completes_with
    [EvCall (process_call reader (get on_reader_request "payment_intent"));
     EvConsole Error "❌ Error processing payment on reader:"
       [VStr (message {| message := "No such reader" |})];
     EvRespond 500
       (object [("error", VStr (message {| message := "No such reader" |}))])]
    (Server.process_on_reader reader processor_down 3 on_reader_request init)
  /\ completes_with
       [EvCall (process_call reader (get on_reader_request "payment_intent"));
        EvConsole Error "❌ Error processing payment on reader:"
          [VStr (message {| message := "No such reader" |})];
        EvRespond 500
          (object
             [("error", VStr (message {| message := "No such reader" |}))])]
       (Part000.process_on_reader reader processor_down 3 on_reader_request
          init).
Proof.
  apply (instruct_error_aborts reader processor_down 3 on_reader_request
           {| message := "No such reader" |});
    reflexivity.
Defined.

(** C9. The cancel route calls the reader's cancel action and nothing
    else before answering: if the call does not fail the answer is
    success with the message Payment cancelled on reader, whatever the
    reader was doing; if it fails the answer is 500 with the error's
    message. *)
Theorem cancel_reports_success (READER_ID : value) (w : world) :
  completes_with
    (EvCall (CancelAction READER_ID)
     :: match on_cancel w READER_ID with
        | Ok _ =>
            [EvConsole Log "🚫 Payment cancelled on reader." [];
             EvRespond 200
               (object [("success", VBool true);
                        ("message", VStr "Payment cancelled on reader")])]
        | Err err =>
            [EvConsole Error "❌ Error cancelling reader action:"
               [VStr (message err)];
             EvRespond 500 (object [("error", VStr (message err))])]
        end)
    (Part000.cancel_payment READER_ID w init).
Proof.
  unfold completes_with, Part000.cancel_payment, try_catch.
  unfold bind at 1. unfold readers_cancelAction, await_call.
  unfold bind at 1. simpl. unfold bind at 1. simpl.
  destruct (on_cancel w READER_ID) as [[]|err]; by split.
Qed.

(** ** The prompt after the response *)

Lemma after_catch_trace text e s :
  trace (after_catch text e s)
  = trace s ++ [(clock s, EvConsole Error text [VStr (message e)]);
                (clock s, EvRespond 500 (error_body (message e)))].
Proof. unfold after_catch. rewrite !logged_trace, <- app_assoc. reflexivity. Qed.

Lemma process_on_reader_kinds READER_ID w fuel body :
  no_success_no_prompt (Server.process_on_reader READER_ID w fuel body init)
  \/ prompted_after_success READER_ID w
       (Server.process_on_reader READER_ID w fuel body init).
Proof.
  destruct (truthy (get body "payment_intent")) eqn:Hid.
  2:{ left. rewrite (process_on_reader_missing _ _ _ _ _ Hid). by split. }
  destruct (on_process w READER_ID
              (object [("payment_intent", get body "payment_intent")]))
    as [[]|err] eqn:Hproc.
  2:{ left. rewrite (process_on_reader_refused _ _ _ _ _ _ Hid Hproc).
      by split. }
  rewrite (process_on_reader_polling _ _ _ _ _ Hid Hproc).
  set (id := get body "payment_intent") in *.
  set (s0 := after_call w (process_call READER_ID id) init).
  destruct (poll_quiet w id fuel s0) as (evs & Htr & Hclk & Hq & Hdone).
  destruct (Server.poll w fuel id s0) as [[result|e|] s1];
    simpl fst in *; simpl snd in *.
  - right. pose proof (Hdone result eq_refl) as Hst.
    apply strict_eq_str_status in Hst as Htest. rewrite Htest.
    exists (trace s1), result. do 3 eexists.
    split; [reflexivity|]. split.
    { simpl snd. rewrite after_prompt_trace, logged_trace, <- app_assoc.
      reflexivity. }
    split; [exact Hst|]. split.
    { apply (after_timeout_clock w 1000
               (logged (EvRespond 200 (success_body result)) s1)). }
    rewrite Htr, !events_where_app, !Hq by reflexivity. by split.
  - left. unfold no_success_no_prompt. simpl snd.
    rewrite after_catch_trace, Htr, !events_where_app, !Hq by reflexivity.
    by split.
  - left. unfold no_success_no_prompt. simpl snd.
    rewrite Htr, !events_where_app, !Hq by reflexivity. by split.
Qed.

Lemma process_on_reader_prompts READER_ID w fuel body n pi_n :
  truthy (get body "payment_intent") = true ->
  on_process w READER_ID
    (object [("payment_intent", get body "payment_intent")]) = Ok tt ->
  1 <= n ->
  (forall k, k < n - 1 ->
     exists pi, on_retrieve w (get body "payment_intent") k = Ok pi
                /\ ~ status_is pi "succeeded") ->
  on_retrieve w (get body "payment_intent") (n - 1) = Ok pi_n ->
  status_is pi_n "succeeded" ->
  n <= fuel ->
  prompted_for READER_ID w pi_n
    (Server.process_on_reader READER_ID w fuel body init).
Proof.
  intros Hid Hproc Hn Hwait Hlast Hsucc Hfuel.
  rewrite (process_on_reader_polling _ _ _ _ _ Hid Hproc).
  set (id := get body "payment_intent") in *.
  set (s0 := after_call w (process_call READER_ID id) init).
  replace fuel with ((n - 1) + S (fuel - n)) by lia.
  rewrite poll_rounds by (intros k Hk; by apply Hwait).
  set (s1 := after_rounds w id (n - 1) s0).
  rewrite (poll_succeeded w id _ s1 pi_n)
    by (unfold s1; by rewrite ?after_rounds_polls).
  apply strict_eq_str_status in Hsucc as Htest. rewrite Htest.
  exists (trace (after_fetch w id s1)). do 3 eexists.
  split; [reflexivity|]. split.
  { simpl snd. rewrite after_prompt_trace, logged_trace, <- app_assoc.
    reflexivity. }
  split; [exact Hsucc|]. split.
  { apply (after_timeout_clock w 1000
             (logged (EvRespond 200 (success_body pi_n))
                (after_fetch w id s1))). }
  rewrite after_fetch_trace, !events_where_app.
  unfold s1. by rewrite !after_rounds_where.
Qed.

(** C7. Whenever a status fetch within the fetches observed reports
    succeeded (the ones before it having reported something else), the
    handler sends the success response for that intent, nothing having
    been answered before, and what follows the response is exactly: the
    1 s timer, the collect-inputs call at least 1 s after the response,
    and one console line, the collected input or, if the call failed, the
    error's message; the handler then returns normally and sends nothing
    more.  And only then: every run whatever is either of that kind, for
    an intent whose status is succeeded, or has sent no success response
    and has not prompted.  Both variants. *)
Theorem prompt_follows_success_response
    (READER_ID : value) (w : world) (fuel : nat) (body : obj) :
  (forall (n : nat) (pi_n : obj),
     truthy (get body "payment_intent") = true ->
     on_process w READER_ID
       (object [("payment_intent", get body "payment_intent")]) = Ok tt ->
     1 <= n ->
     (forall k, k < n - 1 ->
        exists pi, on_retrieve w (get body "payment_intent") k = Ok pi
                   /\ ~ status_is pi "succeeded") ->
     on_retrieve w (get body "payment_intent") (n - 1) = Ok pi_n ->
     status_is pi_n "succeeded" ->
     n <= fuel ->
     prompted_for READER_ID w pi_n
       (Server.process_on_reader READER_ID w fuel body init)
     /\ prompted_for READER_ID w pi_n
          (Part000.process_on_reader READER_ID w fuel body init))
  /\ (no_success_no_prompt
        (Server.process_on_reader READER_ID w fuel body init)
      \/ prompted_after_success READER_ID w
           (Server.process_on_reader READER_ID w fuel body init))
  /\ (no_success_no_prompt
        (Part000.process_on_reader READER_ID w fuel body init)
      \/ prompted_after_success READER_ID w
           (Part000.process_on_reader READER_ID w fuel body init)).
Proof.
  change (Part000.process_on_reader READER_ID w fuel body init)
    with (Server.process_on_reader READER_ID w fuel body init).
  split; [|split; apply process_on_reader_kinds].
  intros n pi_n Hid Hproc Hn Hwait Hlast Hsucc Hfuel.
  split; by apply (process_on_reader_prompts READER_ID w fuel body n pi_n).
Qed.

(** The sale that succeeds on the third fetch ends with the prompt, in
    both variants. *)
Lemma prompt_follows_success_response_witness :
  prompted_for reader third_time_lucky (intent "pi_1" "succeeded")
    (Server.process_on_reader reader third_time_lucky 5 on_reader_request init)
  /\ prompted_for reader third_time_lucky (intent "pi_1" "succeeded")
       (Part000.process_on_reader reader third_time_lucky 5
          on_reader_request init).
Proof.
  apply (proj1 (prompt_follows_success_response
                  reader third_time_lucky 5 on_reader_request)
           3 (intent "pi_1" "succeeded")).
  - reflexivity.
  - reflexivity.
  - lia.
  - intros k Hk. exists (intent "pi_1" "processing").
    split; [|vm_compute; discriminate].
    destruct k as [|[|k]]; [reflexivity|reflexivity|simpl in Hk; lia].
  - reflexivity.
  - reflexivity.
  - lia.
Defined.

(** * Further properties of the handlers *)

(** ** Creation *)

(** If the processor rejects the creation, the run is that one call, the
    error on the console and a 500 response carrying the processor's
    message: there is no retry.  Each variant on its own. *)
Theorem create_error_is_500 (w : world) (body : obj) (err : error) :
  truthy (get body "amount") = true ->
  (on_create w (server_params body) = Err err ->
   completes_with
     [EvCall (PaymentIntentsCreate (server_params body));
      EvConsole Error "❌ Stripe error creating payment intent:"
        [VStr (message err)];
      EvRespond 500 (object [("error", VStr (message err))])]
     (Server.create_payment_intent w body init))
  /\ (on_create w (part000_params body) = Err err ->
      completes_with
        [EvCall (PaymentIntentsCreate (part000_params body));
         EvConsole Error "❌ Stripe error creating payment intent:"
           [VStr (message err)];
         EvRespond 500 (object [("error", VStr (message err))])]
        (Part000.create_payment_intent w body init)).
Proof.
  intros Ha. split; intros Herr; unfold completes_with.
  - rewrite (server_create_calls _ _ _ Ha). split; [reflexivity|].
    simpl snd. by rewrite after_create_events, Herr.
  - rewrite (part000_create_calls _ _ _ Ha). split; [reflexivity|].
    simpl snd. by rewrite after_create_events, Herr.
Qed.

Lemma create_error_is_500_witness :
  completes_with
    [EvCall (PaymentIntentsCreate (server_params emailed_sale));
     EvConsole Error "❌ Stripe error creating payment intent:"
       [VStr (message {| message := "No such reader" |})];
     EvRespond 500
       (object [("error", VStr (message {| message := "No such reader" |}))])]
    (Server.create_payment_intent processor_down emailed_sale init)
  /\ completes_with
       [EvCall (PaymentIntentsCreate (part000_params emailed_sale));
        EvConsole Error "❌ Stripe error creating payment intent:"
          [VStr (message {| message := "No such reader" |})];
        EvRespond 500
          (object
             [("error", VStr (message {| message := "No such reader" |}))])]
       (Part000.create_payment_intent processor_down emailed_sale init).
Proof.
  destruct (create_error_is_500 processor_down emailed_sale
              {| message := "No such reader" |} eq_refl)
    as [Hserver Hpart000].
  split; [apply Hserver|apply Hpart000]; reflexivity.
Defined.

Lemma get_insert_other (body : obj) (k k' : string) (v : value) :
  k <> k' -> get (<[k := v]> body) k' = get body k'.
Proof. intros Hne. unfold get. by rewrite lookup_insert_ne. Qed.

(** The creation handler of [src/server.js] reads the request only
    through [amount], [currency], [email] and [metadata]: two requests that
    agree on these are handled alike, whatever else they carry. *)
Theorem server_create_reads_only_its_fields (w : world) (body body' : obj) :
  get body "amount" = get body' "amount" ->
  get body "currency" = get body' "currency" ->
  get body "email" = get body' "email" ->
  get body "metadata" = get body' "metadata" ->
  Server.create_payment_intent w body = Server.create_payment_intent w body'.
Proof.
  intros Ha Hc He Hm.
  unfold Server.create_payment_intent. by rewrite Ha, Hc, He, Hm.
Qed.

Lemma server_create_reads_only_its_fields_witness :
  Server.create_payment_intent third_time_lucky
    (<["receipt_email" := VStr "r@b.c"]> emailed_sale)
  = Server.create_payment_intent third_time_lucky emailed_sale.
Proof.
  apply (server_create_reads_only_its_fields third_time_lucky
           (<["receipt_email" := VStr "r@b.c"]> emailed_sale) emailed_sale);
    by apply get_insert_other.
Defined.

(** The creation handler of the second variant reads the request only
    through [amount], [currency], [email], [receipt_email] and
    [metadata]. *)
Theorem part000_create_reads_only_its_fields (w : world) (body body' : obj) :
  get body "amount" = get body' "amount" ->
  get body "currency" = get body' "currency" ->
  get body "email" = get body' "email" ->
  get body "receipt_email" = get body' "receipt_email" ->
  get body "metadata" = get body' "metadata" ->
  Part000.create_payment_intent w body = Part000.create_payment_intent w body'.
Proof.
  intros Ha Hc He Hr Hm.
  unfold Part000.create_payment_intent. by rewrite Ha, Hc, He, Hr, Hm.
Qed.

Lemma part000_create_reads_only_its_fields_witness :
  Part000.create_payment_intent third_time_lucky
    (<["note" := VStr "gift"]> emailed_sale)
  = Part000.create_payment_intent third_time_lucky emailed_sale.
Proof.
  apply (part000_create_reads_only_its_fields third_time_lucky
           (<["note" := VStr "gift"]> emailed_sale) emailed_sale);
    by apply get_insert_other.
Defined.

(** [src/server.js] does not read [receipt_email]: adding it to a
    request, or changing it, changes nothing. *)
Theorem server_ignores_receipt_email (w : world) (body : obj) (v : value) :
  Server.create_payment_intent w (<["receipt_email" := v]> body)
  = Server.create_payment_intent w body.
Proof.
  unfold Server.create_payment_intent.
  by rewrite !get_insert_other.
Qed.

Lemma with_default_currency (body : obj) :
  with_default (get body "currency") (VStr "usd") = currency_of body.
Proof.
  unfold get, currency_of.
  by destruct (body !! "currency") as [[]|].
Qed.

(** Whatever the request says, the sale is created card-present, captured
    automatically, under the fixed description, and in the request's
    [currency], or in usd when the request has none.  Both variants. *)
Theorem currency_defaults_to_usd (w : world) (body : obj) :
  truthy (get body "amount") = true ->
  created_in (currency_of body) (Server.create_payment_intent w body init)
  /\ created_in (currency_of body)
       (Part000.create_payment_intent w body init).
Proof.
  intros Ha. split.
  - exists (server_params body). split; [by apply server_creation_call|].
    split; [apply with_default_currency|done].
  - exists (part000_params body). split; [by apply part000_creation_call|].
    split; [apply with_default_currency|done].
Qed.

Lemma currency_defaults_to_usd_witness :
  created_in (currency_of emailed_sale)
    (Server.create_payment_intent third_time_lucky emailed_sale init)
  /\ created_in (currency_of emailed_sale)
       (Part000.create_payment_intent third_time_lucky emailed_sale init).
Proof.
  apply (currency_defaults_to_usd third_time_lucky emailed_sale).
  reflexivity.
Defined.

Lemma own_props_default_object (md : value) :
  own_props md ∪ (∅ : obj) = own_props md.
Proof. apply (right_id_L ∅ (∪)). Qed.

(** The second variant always stores an object as metadata, whatever the
    request sent there (nothing, null, a string, an array, an object), and
    apart from the [customer_email] tag it holds what the request's
    metadata held. *)
Theorem part000_keeps_request_metadata (w : world) (body : obj) :
  truthy (get body "amount") = true ->
  keeps_metadata_of (with_default (get body "metadata") (VObj ∅))
    (Part000.create_payment_intent w body init).
Proof.
  intros Ha. eexists (part000_params body), _.
  split; [by apply part000_creation_call|]. split; [reflexivity|].
  intros k Hk. unfold spread at 2. rewrite own_props_default_object.
  unfold spread, object.
  destruct (truthy (customer_email body)); simpl own_props.
  - rewrite lookup_union_r; [reflexivity|].
    rewrite lookup_insert_ne by congruence. apply lookup_empty.
  - rewrite lookup_union_r; [reflexivity|]. apply lookup_empty.
Qed.

Lemma part000_keeps_request_metadata_witness :
  keeps_metadata_of (with_default (get tagged_sale "metadata") (VObj ∅))
    (Part000.create_payment_intent third_time_lucky tagged_sale init).
Proof.
  apply (part000_keeps_request_metadata third_time_lucky tagged_sale).
  reflexivity.
Defined.

(** Spreading a string copies one property per UTF-16 code unit: one for
    an accented letter, two (the surrogates) for a character beyond
    U+FFFF. *)
Lemma spread_copies_code_units :
  own_props (VStr "é") = {[ "0" := VStr "é" ]}
  /\ size (own_props (VStr "aé€")) = 3
  /\ size (own_props (VStr "😀")) = 2.
Proof. repeat split; vm_compute; reflexivity. Qed.

(** A sale without a contact e-mail (neither [email] nor [receipt_email]
    truthy) is created without a receipt: the second variant stores the
    request's metadata with no tag added, and both variants leave
    [receipt_email] undefined. *)
Theorem no_contact_email_no_receipt (w : world) (body : obj) :
  truthy (get body "amount") = true ->
  truthy (get body "email") = false ->
  truthy (get body "receipt_email") = false ->
  untagged_no_receipt (with_default (get body "metadata") (VObj ∅))
    (Part000.create_payment_intent w body init)
  /\ receipts VUndefined (Server.create_payment_intent w body init).
Proof.
  intros Ha He Hr. split.
  - exists (part000_params body). split; [by apply part000_creation_call|].
    assert (customer_email body = VNull) as Hce.
    { unfold customer_email. by rewrite (or_falsy _ _ He), (or_falsy _ _ Hr). }
    simpl. rewrite Hce. simpl. split; [|reflexivity].
    f_equal. unfold spread at 1, object. simpl own_props.
    rewrite (left_id_L ∅ (∪)). apply own_props_default_object.
  - rewrite <- (or_falsy _ VUndefined He). by apply server_receipts.
Qed.

Lemma no_contact_email_no_receipt_witness :
  untagged_no_receipt (with_default (get plain_sale "metadata") (VObj ∅))
    (Part000.create_payment_intent third_time_lucky plain_sale init)
  /\ receipts VUndefined
       (Server.create_payment_intent third_time_lucky plain_sale init).
Proof.
  apply (no_contact_email_no_receipt third_time_lucky plain_sale);
    reflexivity.
Defined.

(** ** Processing on the reader *)

Lemma after_rounds_clock w id n s :
  (clock s + 1500 * N.of_nat n <= clock (after_rounds w id n s))%N.
Proof.
  revert s. induction n as [|n IH]; intros s.
  - simpl. lia.
  - change (after_rounds w id (S n) s)
      with (after_rounds w id n (after_round w id s)).
    pose proof (IH (after_round w id s)).
    pose proof (after_round_clock w id s). lia.
Qed.

Lemma responses_events (tr : list (N * event)) :
  responses tr = length (List.filter is_respond (tr.*2)).
Proof.
  unfold responses, events_where.
  induction tr as [|[t ev] tr IH]; [reflexivity|].
  simpl. destruct (is_respond ev); simpl; by rewrite IH.
Qed.

Lemma responses_app (tr tr' : list (N * event)) :
  responses (tr ++ tr') = responses tr + responses tr'.
Proof. unfold responses. by rewrite events_where_app, length_app. Qed.

(** If a status fetch fails, the loop ends there: the handler reports the
    processor's message with a 500 response and returns; nothing is
    fetched again and the reader is not prompted.  Both variants. *)
Theorem poll_error_is_500
    (READER_ID : value) (w : world) (body : obj) (n fuel : nat) (err : error) :
  truthy (get body "payment_intent") = true ->
  on_process w READER_ID
    (object [("payment_intent", get body "payment_intent")]) = Ok tt ->
  (forall k, k < n ->
     exists pi, on_retrieve w (get body "payment_intent") k = Ok pi
                /\ ~ status_is pi "succeeded") ->
  on_retrieve w (get body "payment_intent") n = Err err ->
  n < fuel ->
  fails_on_fetch READER_ID (get body "payment_intent") n (message err)
    (Server.process_on_reader READER_ID w fuel body init)
  /\ fails_on_fetch READER_ID (get body "payment_intent") n (message err)
       (Part000.process_on_reader READER_ID w fuel body init).
Proof.
  intros Hid Hproc Hwait Herr Hfuel.
  change (Part000.process_on_reader READER_ID w fuel body init)
    with (Server.process_on_reader READER_ID w fuel body init).
  assert (fails_on_fetch READER_ID (get body "payment_intent") n (message err)
            (Server.process_on_reader READER_ID w fuel body init)) as H;
    [|by split].
  rewrite (process_on_reader_polling _ _ _ _ _ Hid Hproc).
  set (id := get body "payment_intent") in *.
  set (s0 := after_call w (process_call READER_ID id) init).
  replace fuel with (n + S (fuel - S n)) by lia.
  rewrite poll_rounds by (intros k Hk; by apply Hwait).
  rewrite (poll_failed w id _ _ err)
    by (by rewrite after_rounds_polls).
  split; [reflexivity|]. simpl snd.
  rewrite after_catch_trace, after_fetch_trace, !fmap_app,
    after_rounds_events, <- !app_assoc.
  reflexivity.
Qed.

Lemma poll_error_is_500_witness :
  fails_on_fetch reader (get on_reader_request "payment_intent") 1
    (message {| message := "Connection lost" |})
    (Server.process_on_reader reader fails_on_second_fetch 4
       on_reader_request init)
  /\ fails_on_fetch reader (get on_reader_request "payment_intent") 1
       (message {| message := "Connection lost" |})
       (Part000.process_on_reader reader fails_on_second_fetch 4
          on_reader_request init).
Proof.
  apply (poll_error_is_500 reader fails_on_second_fetch on_reader_request 1 4
           {| message := "Connection lost" |}).
  - reflexivity.
  - reflexivity.
  - intros k Hk. exists (intent "pi_1" "processing").
    split; [|vm_compute; discriminate].
    destruct k as [|k]; [reflexivity|lia].
  - reflexivity.
  - lia.
Defined.

(** With processing on polls 1 to N-1 and succeeded on poll N, the success
    response, the first and only one, is sent no earlier than
    1.5 s x (N-1) after the request arrived.  Both variants. *)
Theorem success_takes_the_polling_time
    (READER_ID : value) (w : world) (body : obj) (n fuel : nat) (pi_n : obj) :
  truthy (get body "payment_intent") = true ->
  on_process w READER_ID
    (object [("payment_intent", get body "payment_intent")]) = Ok tt ->
  1 <= n ->
  (forall k, k < n - 1 ->
     exists pi, on_retrieve w (get body "payment_intent") k = Ok pi
                /\ status_is pi "processing") ->
  on_retrieve w (get body "payment_intent") (n - 1) = Ok pi_n ->
  status_is pi_n "succeeded" ->
  n <= fuel ->
  succeeds_no_earlier_than (1500 * N.of_nat (n - 1))
    (trace (snd (Server.process_on_reader READER_ID w fuel body init)))
  /\ succeeds_no_earlier_than (1500 * N.of_nat (n - 1))
       (trace (snd (Part000.process_on_reader READER_ID w fuel body init))).
Proof.
  intros Hid Hproc Hn Hproc_ing Hlast Hsucc Hfuel.
  change (Part000.process_on_reader READER_ID w fuel body init)
    with (Server.process_on_reader READER_ID w fuel body init).
  assert (succeeds_no_earlier_than (1500 * N.of_nat (n - 1))
            (trace (snd (Server.process_on_reader READER_ID w fuel body init))))
    as H; [|by split].
  rewrite (process_on_reader_polling _ _ _ _ _ Hid Hproc).
  set (id := get body "payment_intent") in *.
  set (s0 := after_call w (process_call READER_ID id) init).
  replace fuel with ((n - 1) + S (fuel - n)) by lia.
  rewrite poll_rounds.
  2:{ intros k Hk. destruct (Hproc_ing k Hk) as (pi & Hpi & Hst).
      exists pi. split; [exact Hpi|].
      by apply status_processing_not_succeeded. }
  set (s1 := after_rounds w id (n - 1) s0).
  rewrite (poll_succeeded w id _ s1 pi_n)
    by (unfold s1; by rewrite ?after_rounds_polls).
  apply strict_eq_str_status in Hsucc as Htest. rewrite Htest. simpl snd.
  rewrite after_prompt_trace, logged_trace, <- app_assoc.
  exists (trace (after_fetch w id s1)). do 3 eexists.
  split; [reflexivity|]. split.
  - rewrite after_fetch_trace, events_where_app.
    unfold s1. by rewrite after_rounds_where.
  - change (clock (logged _ ?s)) with (clock s).
    pose proof (after_fetch_clock w id s1).
    pose proof (after_rounds_clock w id (n - 1) s0). fold s1 in H0. lia.
Qed.

Lemma success_takes_the_polling_time_witness :
  succeeds_no_earlier_than (1500 * N.of_nat (3 - 1))
    (trace (snd (Server.process_on_reader reader third_time_lucky 5
                   on_reader_request init)))
  /\ succeeds_no_earlier_than (1500 * N.of_nat (3 - 1))
       (trace (snd (Part000.process_on_reader reader third_time_lucky 5
                      on_reader_request init))).
Proof.
  apply (success_takes_the_polling_time
           reader third_time_lucky on_reader_request 3 5
           (intent "pi_1" "succeeded")).
  - reflexivity.
  - reflexivity.
  - lia.
  - intros k Hk. exists (intent "pi_1" "processing").
    split; [|reflexivity].
    destruct k as [|[|k]]; [reflexivity|reflexivity|simpl in Hk; lia].
  - reflexivity.
  - reflexivity.
  - lia.
Defined.

(** What the loop adds to the trace is fetches of [id] and 1.5 s timers. *)
Lemma poll_events w id fuel s :
  exists evs,
    trace (snd (Server.poll w fuel id s)) = trace s ++ evs
    /\ Forall (fun te : N * event =>
                 te.2 = EvCall (PaymentIntentsRetrieve id)
                 \/ te.2 = EvTimeout 1500) evs.
Proof.
  revert s. induction fuel as [|fuel IH]; intros s.
  - exists []. simpl. by rewrite app_nil_r.
  - destruct (on_retrieve w id (polls s)) as [pi|e] eqn:Hret.
    + destruct (strict_eq_str (get pi "status") "succeeded") eqn:Hst.
      * apply strict_eq_str_status in Hst.
        rewrite (poll_succeeded w id fuel s pi Hret Hst). simpl snd.
        eexists. split; [apply after_fetch_trace|].
        repeat constructor.
      * apply strict_eq_str_not_status in Hst.
        rewrite (poll_round w id fuel s pi Hret Hst).
        destruct (IH (after_round w id s)) as (evs & Htr & Hall).
        eexists. split.
        { rewrite Htr, after_round_trace, <- app_assoc. reflexivity. }
        apply Forall_app. split; [|exact Hall].
        constructor; [by left|]. constructor; [by right|]. constructor.
    + rewrite (poll_failed w id fuel s e Hret). simpl snd.
      eexists. split; [apply after_fetch_trace|].
      repeat constructor.
Qed.

(** What a run for a truthy [payment_intent] looks like: the instruction
    to the reader first, and after it only fetches of that intent, timers,
    console lines, responses and the prompt. *)
Lemma process_on_reader_events READER_ID w fuel body :
  truthy (get body "payment_intent") = true ->
  exists evs,
    (trace (snd (Server.process_on_reader READER_ID w fuel body init))).*2
    = EvCall (process_call READER_ID (get body "payment_intent")) :: evs
    /\ calls_within READER_ID (get body "payment_intent") evs.
Proof.
  intros Hid. set (id := get body "payment_intent") in *.
  destruct (on_process w READER_ID (object [("payment_intent", id)]))
    as [[]|err] eqn:Hproc.
  2:{ rewrite (process_on_reader_refused _ _ _ _ _ _ Hid Hproc).
      eexists. split; [reflexivity|]. by repeat constructor. }
  rewrite (process_on_reader_polling _ _ _ _ _ Hid Hproc). fold id.
  set (s0 := after_call w (process_call READER_ID id) init).
  destruct (poll_events w id fuel s0) as (evs & Htr & Hall).
  assert (calls_within READER_ID id (evs.*2)) as Hevs.
  { unfold calls_within. apply Forall_fmap.
    eapply Forall_impl; [exact Hall|].
    intros [t ev] [H|H]; simpl in H; subst ev; simpl; auto. }
  destruct (Server.poll w fuel id s0) as [[result|e|] s1]; simpl snd in *.
  - destruct (strict_eq_str (get result "status") "succeeded").
    + rewrite after_prompt_trace, logged_trace, Htr, !fmap_app.
      eexists. split; [reflexivity|].
      unfold calls_within. rewrite !Forall_app. split; [split|].
      * exact Hevs.
      * by repeat constructor.
      * constructor; [exact I|].
        constructor; [right; right; reflexivity|].
        constructor; [|constructor].
        unfold collect_report. simpl.
        by destruct (on_collect w READER_ID Server.contact_prompt).
    + rewrite logged_trace, Htr, !fmap_app.
      eexists. split; [reflexivity|].
      unfold calls_within. rewrite !Forall_app. split; [exact Hevs|].
      by repeat constructor.
  - rewrite after_catch_trace, Htr, !fmap_app.
    eexists. split; [reflexivity|].
    unfold calls_within. rewrite !Forall_app. split; [exact Hevs|].
    by repeat constructor.
  - rewrite Htr, !fmap_app. eexists. split; [reflexivity|]. exact Hevs.
Qed.

(** Whatever the processor does and however long the run is observed, the
    only processor calls the process-on-reader handler makes are the
    instruction to the configured reader for the caller's intent, status
    fetches of that same intent, and the prompt on the configured reader:
    it never creates an intent and never cancels.  Both variants. *)
Theorem process_on_reader_calls
    (READER_ID : value) (w : world) (fuel : nat) (body : obj) :
  calls_within READER_ID (get body "payment_intent")
    ((trace (snd (Server.process_on_reader READER_ID w fuel body init))).*2)
  /\ calls_within READER_ID (get body "payment_intent")
       ((trace (snd (Part000.process_on_reader READER_ID w fuel body init))).*2).
Proof.
  change (Part000.process_on_reader READER_ID w fuel body init)
    with (Server.process_on_reader READER_ID w fuel body init).
  assert (calls_within READER_ID (get body "payment_intent")
            ((trace (snd (Server.process_on_reader
                            READER_ID w fuel body init))).*2)) as H;
    [|by split].
  destruct (truthy (get body "payment_intent")) eqn:Hid.
  - destruct (process_on_reader_events READER_ID w fuel body Hid)
      as (evs & -> & Hevs).
    constructor; [by left|exact Hevs].
  - rewrite (process_on_reader_missing _ _ _ _ _ Hid).
    by repeat constructor.
Qed.

(** The check on [payment_intent] is truthiness.  A request whose
    [payment_intent] is falsy (absent, null, false, zero, the empty
    string) is answered 400 and nothing else happens; for a truthy one,
    of whatever type, the first thing the handler does is to instruct the
    reader with that very value.  Both variants. *)
Theorem payment_intent_check_is_truthiness
    (READER_ID : value) (w : world) (fuel : nat) (body : obj) :
  (if truthy (get body "payment_intent")
   then instructs_reader READER_ID (get body "payment_intent")
          (Server.process_on_reader READER_ID w fuel body init)
        /\ instructs_reader READER_ID (get body "payment_intent")
             (Part000.process_on_reader READER_ID w fuel body init)
   else completes_with [EvRespond 400 (error_body "Missing payment_intent")]
          (Server.process_on_reader READER_ID w fuel body init)
        /\ completes_with
             [EvRespond 400 (error_body "Missing payment_intent")]
             (Part000.process_on_reader READER_ID w fuel body init))
  /\ truthy VUndefined = false
  /\ truthy VNull = false
  /\ truthy (VBool false) = false
  /\ truthy (VNum (Fin 0)) = false
  /\ truthy (VStr "") = false
  /\ (forall m : obj, truthy (VObj m) = true)
  /\ (forall l : list value, truthy (VArr l) = true)
  /\ truthy (VNum (Fin 7)) = true.
Proof.
  split; [|by repeat split].
  change (Part000.process_on_reader READER_ID w fuel body init)
    with (Server.process_on_reader READER_ID w fuel body init).
  destruct (truthy (get body "payment_intent")) eqn:Hid.
  - destruct (process_on_reader_events READER_ID w fuel body Hid)
      as (evs & Htr & _).
    unfold instructs_reader. rewrite Htr. by split.
  - rewrite (process_on_reader_missing _ _ _ _ _ Hid). by split.
Qed.

(** The process-on-reader handler reads the request only through
    [payment_intent].  Both variants. *)
Theorem process_reads_only_payment_intent
    (READER_ID : value) (w : world) (fuel : nat) (body body' : obj) :
  get body "payment_intent" = get body' "payment_intent" ->
  Server.process_on_reader READER_ID w fuel body
  = Server.process_on_reader READER_ID w fuel body'
  /\ Part000.process_on_reader READER_ID w fuel body
     = Part000.process_on_reader READER_ID w fuel body'.
Proof.
  intros Hid. split.
  - unfold Server.process_on_reader. by rewrite Hid.
  - unfold Part000.process_on_reader. by rewrite Hid.
Qed.

Lemma process_reads_only_payment_intent_witness :
  Server.process_on_reader reader third_time_lucky 5
    (<["amount" := VNum (Fin 1500)]> on_reader_request)
  = Server.process_on_reader reader third_time_lucky 5 on_reader_request
  /\ Part000.process_on_reader reader third_time_lucky 5
       (<["amount" := VNum (Fin 1500)]> on_reader_request)
     = Part000.process_on_reader reader third_time_lucky 5 on_reader_request.
Proof.
  apply (process_reads_only_payment_intent reader third_time_lucky 5
           (<["amount" := VNum (Fin 1500)]> on_reader_request)
           on_reader_request).
  by apply get_insert_other.
Defined.

(** ** One response per request *)

Lemma create_answers_once w (p : createParams) :
  responses (trace (after_create w p init)) = 1.
Proof.
  rewrite responses_events, after_create_events.
  by destruct (on_create w p).
Qed.

Lemma process_on_reader_answers READER_ID w fuel body :
  answers_once (Server.process_on_reader READER_ID w fuel body init)
  \/ pending_unanswered (Server.process_on_reader READER_ID w fuel body init).
Proof.
  destruct (truthy (get body "payment_intent")) eqn:Hid.
  2:{ left. rewrite (process_on_reader_missing _ _ _ _ _ Hid). by split. }
  destruct (on_process w READER_ID
              (object [("payment_intent", get body "payment_intent")]))
    as [[]|err] eqn:Hproc.
  2:{ left. rewrite (process_on_reader_refused _ _ _ _ _ _ Hid Hproc).
      by split. }
  rewrite (process_on_reader_polling _ _ _ _ _ Hid Hproc).
  set (id := get body "payment_intent") in *.
  set (s0 := after_call w (process_call READER_ID id) init).
  destruct (poll_quiet w id fuel s0) as (evs & Htr & _ & Hq & _).
  assert (responses (trace s0) = 0) as Hs0 by reflexivity.
  assert (responses evs = 0) as Hnone.
  { unfold responses. by rewrite (Hq is_respond). }
  destruct (Server.poll w fuel id s0) as [[result|e|] s1]; simpl snd in *.
  - left. split; [reflexivity|]. simpl snd.
    destruct (strict_eq_str (get result "status") "succeeded").
    + rewrite after_prompt_trace, logged_trace, Htr, !responses_app,
        Hs0, Hnone.
      change (responses [?a; ?b; ?c]) with (responses [c]).
      unfold responses. by rewrite collect_report_not_respond.
    + by rewrite logged_trace, Htr, !responses_app, Hs0, Hnone.
  - left. split; [reflexivity|]. simpl snd.
    by rewrite after_catch_trace, Htr, !responses_app, Hs0, Hnone.
  - right. split; [reflexivity|]. simpl snd.
    by rewrite Htr, responses_app, Hs0, Hnone.
Qed.

(** No handler answers twice.  The creation handlers and the cancel
    handler always return having answered exactly once, whatever the
    request and the processor; the process-on-reader handler, observed for
    any length of time, has either returned having answered exactly once
    or is still pending having answered nothing. *)
Theorem every_handler_answers_once
    (READER_ID : value) (w : world) (fuel : nat) (body : obj) :
  answers_once (Server.create_payment_intent w body init)
  /\ answers_once (Part000.create_payment_intent w body init)
  /\ answers_once (Part000.cancel_payment READER_ID w init)
  /\ (answers_once (Server.process_on_reader READER_ID w fuel body init)
      \/ pending_unanswered
           (Server.process_on_reader READER_ID w fuel body init))
  /\ (answers_once (Part000.process_on_reader READER_ID w fuel body init)
      \/ pending_unanswered
           (Part000.process_on_reader READER_ID w fuel body init)).
Proof.
  split; [|split; [|split; [|split]]].
  - destruct (truthy (get body "amount")) eqn:Ha.
    + rewrite (server_create_calls _ _ _ Ha).
      split; [reflexivity|apply create_answers_once].
    + rewrite (server_create_missing _ _ _ Ha). by split.
  - destruct (truthy (get body "amount")) eqn:Ha.
    + rewrite (part000_create_calls _ _ _ Ha).
      split; [reflexivity|apply create_answers_once].
    + rewrite (part000_create_missing _ _ _ Ha). by split.
  - unfold answers_once, Part000.cancel_payment, try_catch.
    unfold bind at 1. unfold readers_cancelAction, await_call.
    unfold bind at 1. simpl. unfold bind at 1. simpl.
    destruct (on_cancel w READER_ID) as [[]|err]; by split.
  - apply process_on_reader_answers.
  - apply process_on_reader_answers.
Qed.


(** * The applications: which layer disposes of a request *)

Section Routing.
Variable mounted : string -> request -> bool.
Variable routed : string -> string -> request -> bool.
Variable send_file : list string -> request -> verdict.
Variable READER_ID : value.
Variable w : world.
Variable fuel : nat.
Variable dirname : string.
Variable cors json raw : request -> verdict.
Variable static : list string -> request -> verdict.

Local Abbreviation server_app :=
  (ServerApp.app READER_ID w fuel dirname cors json raw static).
Local Abbreviation part000_app :=
  (Part000App.app READER_ID w fuel dirname cors json raw static).
(** Every route of [src/server.js] is a route of the second variant, so
    the routes of the latter are the ones to tell apart. *)
Local Abbreviation arrives :=
  (arrives_at mounted routed cors json raw static dirname part000_app).

Lemma server_routes_known :
  incl (routes_of server_app) (routes_of part000_app).
Proof. intros vp. simpl. tauto. Qed.

Lemma sole_match_other routes verb pattern req v p :
  sole_match routed routes verb pattern req ->
  In (v, p) routes ->
  (v, p) <> (verb, pattern) ->
  routed v p req = false.
Proof.
  intros Hsole Hin Hne. destruct (routed v p req) eqn:Hvp; [|reflexivity].
  apply (Hsole v p Hin) in Hvp as [-> ->]. by destruct Hne.
Qed.

Lemma sole_match_self routes verb pattern req :
  sole_match routed routes verb pattern req ->
  In (verb, pattern) routes ->
  routed verb pattern req = true.
Proof. intros Hsole Hin. by apply (Hsole verb pattern Hin). Qed.

(** In [src/server.js] a file of the static directory never shadows a
    route: the static directory serves a request only if every
    registered route that matches it is one of the two pages and its
    [res.sendFile] has passed the request on; a request that matches one
    of the JSON routes is never served from the static directory. *)
Theorem server_static_never_shadows_a_route (req : request) :
  dispatch mounted routed send_file server_app req = Ended "express.static" ->
  forall verb pattern h,
    In (Route verb pattern h) server_app ->
    routed verb pattern req = true ->
    exists segments,
      h req = SendFile segments /\ send_file segments req = Next.
Proof.
  intros Hd verb pattern h Hin Hmatch.
  unfold ServerApp.app in Hd, Hin. simpl in Hd. unfold pass, deliver in Hd.
  simpl in Hd. simpl in Hin.
  repeat (destruct Hin as [Hin|Hin];
          [try discriminate Hin; injection Hin as <- <- <-|]);
    try destruct Hin;
    rewrite ?Hmatch in Hd;
    repeat case_match; try discriminate;
    try (eexists; split; [reflexivity|assumption]).
Qed.

(** In the second variant the static directory is registered before the
    routes: a request it serves never reaches a route, whichever route
    matches it. *)
Theorem part000_static_shadows_routes (req : request) :
  cors req = Next ->
  static [dirname; "public"] req = Ends ->
  dispatch mounted routed send_file part000_app req = Ended "express.static".
Proof.
  intros Hcors Hstatic. unfold Part000App.app. simpl.
  by rewrite Hcors, Hstatic.
Qed.

(** A request that passes the middleware, matches none of the registered
    routes and is not a file of the static directory is answered by
    [src/server.js] with 404, Route not found and the path asked for; the
    second variant has no such fallback and leaves the request
    unhandled. *)
Theorem unknown_route_is_404_in_server_only (req : request) :
  passes mounted cors json raw req ->
  static [dirname; "public"] req = Next ->
  unrouted routed (routes_of part000_app) req ->
  dispatch mounted routed send_file server_app req
  = Handled
      (Run (res_status_json 404
              (object [("error", VStr "Route not found");
                       ("path", VStr (req_path req))])))
  /\ dispatch mounted routed send_file part000_app req = Unhandled.
Proof.
  intros (Hcors & Hjson & Hraw) Hstatic Hun.
  unfold ServerApp.app, Part000App.app. simpl.
  rewrite Hcors, Hjson, Hstatic. simpl.
  rewrite !Hun by (simpl; tauto).
  destruct (mounted "/webhook" req); [rewrite Hraw|]; done.
Qed.

(** The payment routes reach the handlers: a POST that arrives at
    /create-payment-intent, or at /process-on-reader, runs the handler of
    that name on the request's body.  Both variants. *)
Theorem payment_routes_reach_their_handlers (create_req process_req : request) :
  arrives "POST" "/create-payment-intent" create_req ->
  arrives "POST" "/process-on-reader" process_req ->
  dispatch mounted routed send_file server_app create_req
  = Handled (Run (Server.create_payment_intent w (req_body create_req)))
  /\ dispatch mounted routed send_file part000_app create_req
     = Handled (Run (Part000.create_payment_intent w (req_body create_req)))
  /\ dispatch mounted routed send_file server_app process_req
     = Handled
         (Run (Server.process_on_reader READER_ID w fuel (req_body process_req)))
  /\ dispatch mounted routed send_file part000_app process_req
     = Handled
         (Run (Part000.process_on_reader READER_ID w fuel
                 (req_body process_req))).
Proof.
  intros ((Hcors & Hjson & Hraw) & Hstatic & Hsole)
         ((Hcors' & Hjson' & Hraw') & Hstatic' & Hsole').
  unfold ServerApp.app, Part000App.app. simpl.
  rewrite Hcors, Hjson, Hstatic, Hcors', Hjson', Hstatic'. simpl.
  rewrite (sole_match_self _ _ _ _ Hsole) by (simpl; tauto).
  rewrite (sole_match_self _ _ _ _ Hsole') by (simpl; tauto).
  rewrite !(sole_match_other _ _ _ _ _ _ Hsole)
    by first [congruence | simpl; tauto].
  rewrite !(sole_match_other _ _ _ _ _ _ Hsole')
    by first [congruence | simpl; tauto].
  destruct (mounted "/webhook" create_req); [rewrite Hraw|];
    (destruct (mounted "/webhook" process_req); [rewrite Hraw'|]); done.
Qed.

(** Cancelling exists in the second variant only: a POST that arrives at
    /cancel-payment runs the cancel handler there, and is answered 404,
    Route not found, by [src/server.js], where the reader is not
    contacted. *)
Theorem cancel_route_only_in_part000 (req : request) :
  arrives "POST" "/cancel-payment" req ->
  dispatch mounted routed send_file part000_app req
  = Handled (Run (Part000.cancel_payment READER_ID w))
  /\ dispatch mounted routed send_file server_app req
     = Handled
         (Run (res_status_json 404
                 (object [("error", VStr "Route not found");
                          ("path", VStr (req_path req))]))).
Proof.
  intros ((Hcors & Hjson & Hraw) & Hstatic & Hsole).
  unfold ServerApp.app, Part000App.app. simpl.
  rewrite Hcors, Hjson, Hstatic. simpl.
  rewrite (sole_match_self _ _ _ _ Hsole) by (simpl; tauto).
  rewrite !(sole_match_other _ _ _ _ _ _ Hsole)
    by first [congruence | simpl; tauto].
  destruct (mounted "/webhook" req); [rewrite Hraw|]; done.
Qed.

(** The webhook acknowledges whatever it is sent: a POST that arrives at
    /webhook is answered 200 with received true, the body is not read and
    the processor is not called.  Both variants. *)
Theorem webhook_acknowledges (req : request) :
  arrives "POST" "/webhook" req ->
  exists m,
    dispatch mounted routed send_file server_app req = Handled (Run m)
    /\ dispatch mounted routed send_file part000_app req = Handled (Run m)
    /\ completes_with [EvRespond 200 (object [("received", VBool true)])]
         (m init).
Proof.
  intros ((Hcors & Hjson & Hraw) & Hstatic & Hsole).
  exists (res_json (object [("received", VBool true)])).
  unfold ServerApp.app, Part000App.app. simpl.
  rewrite Hcors, Hjson, Hstatic. simpl.
  rewrite (sole_match_self _ _ _ _ Hsole) by (simpl; tauto).
  rewrite !(sole_match_other _ _ _ _ _ _ Hsole)
    by first [congruence | simpl; tauto].
  destruct (mounted "/webhook" req); [rewrite Hraw|]; done.
Qed.

End Routing.

(** The sample Express, on which the statements above are not vacuous. *)

Lemma exact_sole_match routes verb path body :
  sole_match exact_routed routes verb path (http verb path body).
Proof.
  intros v p _. unfold exact_routed. simpl.
  rewrite andb_true_iff, !String.eqb_eq. done.
Qed.

Lemma sample_arrives stack verb path body :
  arrives_at prefix_mounted exact_routed calls_next calls_next calls_next
    no_files "/srv" stack verb path (http verb path body).
Proof.
  split; [|split].
  - split; [reflexivity|]. split; [reflexivity|].
    unfold calls_next. by destruct (prefix_mounted _ _).
  - reflexivity.
  - apply exact_sole_match.
Qed.

Lemma server_static_never_shadows_a_route_witness :
  exists segments,
    ServerApp.pos_page "/srv" (http "GET" "/pos" empty_request)
    = SendFile segments
    /\ finds_directory segments (http "GET" "/pos" empty_request) = Next.
Proof.
  apply (server_static_never_shadows_a_route
           prefix_mounted exact_routed finds_directory
           reader third_time_lucky 5 "/srv"
           calls_next calls_next calls_next pos_file
           (http "GET" "/pos" empty_request) eq_refl
           "GET" "/pos" (ServerApp.pos_page "/srv")).
  - simpl. tauto.
  - reflexivity.
Defined.

Lemma part000_static_shadows_routes_witness :
  dispatch prefix_mounted exact_routed sends
    (Part000App.app reader third_time_lucky 5 "/srv"
       calls_next calls_next calls_next ping_file)
    (http "GET" "/ping" empty_request)
  = Ended "express.static".
Proof.
  apply (part000_static_shadows_routes
           prefix_mounted exact_routed sends reader third_time_lucky 5 "/srv"
           calls_next calls_next calls_next ping_file
           (http "GET" "/ping" empty_request));
    reflexivity.
Defined.

Lemma unknown_route_is_404_in_server_only_witness :
  dispatch prefix_mounted exact_routed sends
    (ServerApp.app reader third_time_lucky 5 "/srv"
       calls_next calls_next calls_next no_files)
    (http "GET" "/nope" empty_request)
  = Handled
      (Run (res_status_json 404
              (object [("error", VStr "Route not found");
                       ("path",
                        VStr (req_path (http "GET" "/nope" empty_request)))])))
  /\ dispatch prefix_mounted exact_routed sends
       (Part000App.app reader third_time_lucky 5 "/srv"
          calls_next calls_next calls_next no_files)
       (http "GET" "/nope" empty_request)
     = Unhandled.
Proof.
  apply (unknown_route_is_404_in_server_only
           prefix_mounted exact_routed sends reader third_time_lucky 5 "/srv"
           calls_next calls_next calls_next no_files
           (http "GET" "/nope" empty_request)).
  - split; [reflexivity|]. split; reflexivity.
  - reflexivity.
  - intros v p Hin. simpl in Hin.
    repeat (destruct Hin as [[= <- <-]|Hin]; [reflexivity|]).
    destruct Hin.
Defined.

Lemma payment_routes_reach_their_handlers_witness :
  dispatch prefix_mounted exact_routed sends
    (ServerApp.app reader third_time_lucky 5 "/srv"
       calls_next calls_next calls_next no_files)
    (http "POST" "/create-payment-intent" emailed_sale)
  = Handled
      (Run (Server.create_payment_intent third_time_lucky
              (req_body (http "POST" "/create-payment-intent" emailed_sale))))
  /\ dispatch prefix_mounted exact_routed sends
       (Part000App.app reader third_time_lucky 5 "/srv"
          calls_next calls_next calls_next no_files)
       (http "POST" "/create-payment-intent" emailed_sale)
     = Handled
         (Run (Part000.create_payment_intent third_time_lucky
                 (req_body
                    (http "POST" "/create-payment-intent" emailed_sale))))
  /\ dispatch prefix_mounted exact_routed sends
       (ServerApp.app reader third_time_lucky 5 "/srv"
          calls_next calls_next calls_next no_files)
       (http "POST" "/process-on-reader" on_reader_request)
     = Handled
         (Run (Server.process_on_reader reader third_time_lucky 5
                 (req_body
                    (http "POST" "/process-on-reader" on_reader_request))))
  /\ dispatch prefix_mounted exact_routed sends
       (Part000App.app reader third_time_lucky 5 "/srv"
          calls_next calls_next calls_next no_files)
       (http "POST" "/process-on-reader" on_reader_request)
     = Handled
         (Run (Part000.process_on_reader reader third_time_lucky 5
                 (req_body
                    (http "POST" "/process-on-reader" on_reader_request)))).
Proof.
  apply (payment_routes_reach_their_handlers
           prefix_mounted exact_routed sends reader third_time_lucky 5 "/srv"
           calls_next calls_next calls_next no_files
           (http "POST" "/create-payment-intent" emailed_sale)
           (http "POST" "/process-on-reader" on_reader_request));
    apply sample_arrives.
Defined.

Lemma cancel_route_only_in_part000_witness :
  dispatch prefix_mounted exact_routed sends
    (Part000App.app reader third_time_lucky 5 "/srv"
       calls_next calls_next calls_next no_files)
    (http "POST" "/cancel-payment" empty_request)
  = Handled (Run (Part000.cancel_payment reader third_time_lucky))
  /\ dispatch prefix_mounted exact_routed sends
       (ServerApp.app reader third_time_lucky 5 "/srv"
          calls_next calls_next calls_next no_files)
       (http "POST" "/cancel-payment" empty_request)
     = Handled
         (Run (res_status_json 404
                 (object
                    [("error", VStr "Route not found");
                     ("path",
                      VStr (req_path
                              (http "POST" "/cancel-payment" empty_request)))]))).
Proof.
  apply (cancel_route_only_in_part000
           prefix_mounted exact_routed sends reader third_time_lucky 5 "/srv"
           calls_next calls_next calls_next no_files
           (http "POST" "/cancel-payment" empty_request)).
  apply sample_arrives.
Defined.

Lemma webhook_acknowledges_witness :
  exists m,
    dispatch prefix_mounted exact_routed sends
      (ServerApp.app reader third_time_lucky 5 "/srv"
         calls_next calls_next calls_next no_files)
      (http "POST" "/webhook" emailed_sale)
    = Handled (Run m)
    /\ dispatch prefix_mounted exact_routed sends
         (Part000App.app reader third_time_lucky 5 "/srv"
            calls_next calls_next calls_next no_files)
         (http "POST" "/webhook" emailed_sale)
       = Handled (Run m)
    /\ completes_with [EvRespond 200 (object [("received", VBool true)])]
         (m init).
Proof.
  apply (webhook_acknowledges
           prefix_mounted exact_routed sends reader third_time_lucky 5 "/srv"
           calls_next calls_next calls_next no_files
           (http "POST" "/webhook" emailed_sale)).
  apply sample_arrives.
Defined.
